(** * PharmaGenie aggregation layer: a shallow embedding in Rocq

    This development embeds the parts of the PharmaGenie code base that
    make up its multi-source aggregation layer: the orchestrator
    [analyze_drug] of [app.py], the request wrappers of the FDA, clinical
    trials and trade agents, their rate limiter and TTL caches, and the
    simulated patent and internal-knowledge agents together with the
    Python [random] module they seed. *)

From Stdlib Require Import ZArith List String Ascii Bool Lia Sorted.
Import ListNotations.
Set Warnings "-register-all".
Open Scope string_scope.
Open Scope Z_scope.

(* ------------------------------------------------------------------ *)
(** ** Python's [random] module (CPython [_randommodule.c], [random.py]) *)
(* ------------------------------------------------------------------ *)

Module MT.

Definition N_ : nat := 624.
Definition M_ : nat := 397.
Definition MATRIX_A : Z := 2567483615.   (* 0x9908b0df *)
Definition UPPER_MASK : Z := 2147483648. (* 0x80000000 *)
Definition LOWER_MASK : Z := 2147483647. (* 0x7fffffff *)
Definition mask32 : Z := 4294967295.

(** The generator state: the 624-word array [mt] and the index [mti]. *)
Record state := mk_state { mt : list Z; mti : nat }.

Fixpoint set_nth (l : list Z) (i : nat) (x : Z) : list Z :=
  match l, i with
  | [], _ => []
  | _ :: t, O => x :: t
  | h :: t, S i' => h :: set_nth t i' x
  end.

Definition get (l : list Z) (i : nat) : Z := nth i l 0.

(** [init_genrand]: [mt[0] = s]; [mt[i] = 1812433253 * (mt[i-1] ^ (mt[i-1] >> 30)) + i]. *)
Fixpoint init_genrand_from (prev : Z) (i : nat) (fuel : nat) : list Z :=
  match fuel with
  | O => []
  | S f =>
      let x := Z.land (1812433253 * Z.lxor prev (Z.shiftr prev 30) + Z.of_nat i) mask32 in
      x :: init_genrand_from x (S i) f
  end.

Definition init_genrand (s : Z) : list Z :=
  let s0 := Z.land s mask32 in s0 :: init_genrand_from s0 1 (N_ - 1).

(** First loop of [init_by_array]: runs [k] times over indices [i], [j]. *)
Fixpoint iba_loop1 (k : nat) (m : list Z) (i j : nat) (key : list Z) : list Z * nat :=
  match k with
  | O => (m, i)
  | S k' =>
      let p := get m (i - 1) in
      let v := Z.land (Z.lxor (get m i) (Z.lxor p (Z.shiftr p 30) * 1664525)
                       + get key j + Z.of_nat j) mask32 in
      let m1 := set_nth m i v in
      let i1 := S i in
      let j1 := S j in
      let '(m2, i2) := if (N_ <=? i1)%nat then (set_nth m1 0 (get m1 (N_ - 1)), 1%nat)
                       else (m1, i1) in
      let j2 := if (List.length key <=? j1)%nat then 0%nat else j1 in
      iba_loop1 k' m2 i2 j2 key
  end.

Fixpoint iba_loop2 (k : nat) (m : list Z) (i : nat) : list Z :=
  match k with
  | O => m
  | S k' =>
      let p := get m (i - 1) in
      let v := Z.land (Z.lxor (get m i) (Z.lxor p (Z.shiftr p 30) * 1566083941)
                       - Z.of_nat i) mask32 in
      let m1 := set_nth m i v in
      let i1 := S i in
      let '(m2, i2) := if (N_ <=? i1)%nat then (set_nth m1 0 (get m1 (N_ - 1)), 1%nat)
                       else (m1, i1) in
      iba_loop2 k' m2 i2
  end.

Definition init_by_array (key : list Z) : state :=
  let m0 := init_genrand 19650218 in
  let k := Nat.max N_ (List.length key) in
  let '(m1, i1) := iba_loop1 k m0 1 0 key in
  let m2 := iba_loop2 (N_ - 1) m1 i1 in
  mk_state (set_nth m2 0 2147483648) N_.

(** The 32-bit words of [abs n], least significant first ([random_seed]). *)
Fixpoint words_of (fuel : nat) (n : Z) : list Z :=
  match fuel with
  | O => []
  | S f => if n =? 0 then [] else Z.land n mask32 :: words_of f (Z.shiftr n 32)
  end.

Definition seed (n : Z) : state :=
  let a := Z.abs n in
  let key := words_of 64 a in
  init_by_array (match key with [] => [0] | _ => key end).

Definition mag01 (y : Z) : Z := if Z.testbit y 0 then MATRIX_A else 0.

Definition twist_word (a b c : Z) : Z :=
  let y := Z.lor (Z.land a UPPER_MASK) (Z.land b LOWER_MASK) in
  Z.lxor (Z.lxor c (Z.shiftr y 1)) (mag01 y).

(** The in-place regeneration of the whole array, index by index. *)
Fixpoint twist_loop (k : nat) (m : list Z) (kk : nat) : list Z :=
  match k with
  | O => m
  | S k' =>
      let other := if (kk + M_ <? N_)%nat then (kk + M_)%nat else (kk + M_ - N_)%nat in
      let nxt := if (kk + 1 <? N_)%nat then (kk + 1)%nat else 0%nat in
      let v := twist_word (get m kk) (get m nxt) (get m other) in
      twist_loop k' (set_nth m kk v) (S kk)
  end.

Definition twist (m : list Z) : list Z := twist_loop N_ m 0.

Definition temper (y0 : Z) : Z :=
  let y1 := Z.lxor y0 (Z.shiftr y0 11) in
  let y2 := Z.lxor y1 (Z.land (Z.shiftl y1 7) 2636928640) in
  let y3 := Z.lxor y2 (Z.land (Z.shiftl y2 15) 4022730752) in
  Z.land (Z.lxor y3 (Z.shiftr y3 18)) mask32.

(** [genrand_uint32]. *)
Definition genrand_uint32 (s : state) : Z * state :=
  let '(m, i) := if (N_ <=? mti s)%nat then (twist (mt s), 0%nat) else (mt s, mti s) in
  (temper (get m i), mk_state m (S i)).

End MT.

(** The pure-Python layer of [random.py] over any source of 32-bit words.
    A random computation is a state-passing function over the generator
    state; the rejection loop of [_randbelow] runs on fuel, and a run that
    exhausts it yields [None]. *)
Section PyRandom.

Variable G : Type.
Variable next32 : G -> Z * G.

Definition RM (A : Type) : Type := G -> option (A * G).

Definition ret {A} (x : A) : RM A := fun g => Some (x, g).

Definition bind {A B} (m : RM A) (f : A -> RM B) : RM B :=
  fun g => match m g with Some (x, g') => f x g' | None => None end.

Definition bit_length (n : Z) : Z := if n <=? 0 then 0 else Z.log2 n + 1.

(** [getrandbits(k)] for [0 < k <= 32]: [genrand_uint32() >> (32 - k)]. *)
Definition getrandbits (k : Z) : RM Z :=
  fun g => let '(w, g') := next32 g in Some (Z.shiftr w (32 - k), g').

Definition randbelow_fuel : nat := 64.

(** [_randbelow_with_getrandbits]: draw [k = n.bit_length()] bits until
    the draw is below [n]. *)
Fixpoint randbelow_loop (fuel : nat) (n k : Z) : RM Z :=
  match fuel with
  | O => fun _ => None
  | S f => bind (getrandbits k) (fun r =>
             if r >=? n then randbelow_loop f n k else ret r)
  end.

Definition randbelow (n : Z) : RM Z := randbelow_loop randbelow_fuel n (bit_length n).

(** [randint(a, b) = randrange(a, b + 1) = a + _randbelow(b + 1 - a)]. *)
Definition randint (a b : Z) : RM Z := bind (randbelow (b + 1 - a)) (fun r => ret (a + r)).

(** [choice(seq) = seq[_randbelow(len(seq))]]. *)
Definition choice {A} (d : A) (l : list A) : RM A :=
  bind (randbelow (Z.of_nat (List.length l))) (fun i => ret (nth (Z.to_nat i) l d)).

Fixpoint replicateM {A} (n : nat) (m : RM A) : RM (list A) :=
  match n with
  | O => ret []
  | S n' => bind m (fun x => bind (replicateM n' m) (fun xs => ret (x :: xs)))
  end.

End PyRandom.

Arguments ret {G A}.
Arguments bind {G A B}.
Arguments getrandbits {G}.
Arguments randbelow_loop {G}.
Arguments randbelow {G}.
Arguments randint {G}.
Arguments choice {G} _ {A} _ _.
Arguments replicateM {G A}.

Notation "x <- m ;; k" := (bind m (fun x => k)) (at level 61, m at next level, right associativity).

(* ------------------------------------------------------------------ *)
(** ** Python strings, integers and dates *)
(* ------------------------------------------------------------------ *)

(** Strings are byte strings of [Stdlib.Strings]; the model covers ASCII
    text, on which [str.lower] maps exactly 'A'..'Z' to 'a'..'z'. *)
Definition ord (c : ascii) : Z := Z.of_nat (nat_of_ascii c).

Definition lower_char (c : ascii) : ascii :=
  let n := nat_of_ascii c in
  if ((65 <=? n)%nat && (n <=? 90)%nat)%bool then ascii_of_nat (n + 32) else c.

(** [str.lower]. *)
Fixpoint py_lower (s : string) : string :=
  match s with
  | EmptyString => EmptyString
  | String c s' => String (lower_char c) (py_lower s')
  end.

(** [sum(ord(c) for c in s)]. *)
Fixpoint ord_sum (s : string) : Z :=
  match s with
  | EmptyString => 0
  | String c s' => ord c + ord_sum s'
  end.

Fixpoint str_prefix (p s : string) : bool :=
  match p, s with
  | EmptyString, _ => true
  | String _ _, EmptyString => false
  | String c p', String d s' => Ascii.eqb c d && str_prefix p' s'
  end.

(** Python's [pat in s] for strings. *)
Fixpoint str_contains (s pat : string) : bool :=
  match s with
  | EmptyString => str_prefix pat EmptyString
  | String _ s' => str_prefix pat s || str_contains s' pat
  end.

Definition digit (d : Z) : ascii := ascii_of_nat (48 + Z.to_nat d).

Fixpoint dec_digits (fuel : nat) (n : Z) (acc : string) : string :=
  match fuel with
  | O => acc
  | S f => let acc' := String (digit (n mod 10)) acc in
           if n <? 10 then acc' else dec_digits f (n / 10) acc'
  end.

(** [str(n)] for an int. *)
Definition py_str_int (n : Z) : string :=
  if n <? 0 then String "-" (dec_digits 64 (- n) EmptyString)
  else dec_digits 64 n EmptyString.

(** The [%m] and [%d] fields of [strftime]: two digits, zero padded. *)
Definition pad2 (n : Z) : string :=
  if n <? 10 then String "0" (py_str_int n) else py_str_int n.

(** Dates follow CPython's [datetime.py]: a date is its proleptic
    Gregorian ordinal, a [datetime] adds the microseconds since midnight. *)
Record datetime := mk_datetime { dt_ord : Z; dt_us : Z }.

Definition is_leap (y : Z) : bool :=
  (y mod 4 =? 0) && ((negb (y mod 100 =? 0)) || (y mod 400 =? 0)).

Definition days_in_month (y m : Z) : Z :=
  match m with
  | 1 => 31 | 2 => if is_leap y then 29 else 28 | 3 => 31 | 4 => 30
  | 5 => 31 | 6 => 30 | 7 => 31 | 8 => 31 | 9 => 30 | 10 => 31
  | 11 => 30 | _ => 31
  end.

(** [_DAYS_BEFORE_MONTH] of a non-leap year. *)
Definition days_before_month_tbl (m : Z) : Z :=
  match m with
  | 1 => 0 | 2 => 31 | 3 => 59 | 4 => 90 | 5 => 120 | 6 => 151 | 7 => 181
  | 8 => 212 | 9 => 243 | 10 => 273 | 11 => 304 | 12 => 334 | _ => 0
  end.

Definition days_before_year (y : Z) : Z :=
  let y1 := y - 1 in y1 * 365 + y1 / 4 - y1 / 100 + y1 / 400.

Definition days_before_month (y m : Z) : Z :=
  days_before_month_tbl m + (if (2 <? m) && is_leap y then 1 else 0).

(** [_ymd2ord]. *)
Definition ymd2ord (y m d : Z) : Z := days_before_year y + days_before_month y m + d.

(** [_ord2ymd]. *)
Definition ord2ymd (n0 : Z) : Z * Z * Z :=
  let n := n0 - 1 in
  let n400 := n / 146097 in let n := n mod 146097 in
  let n100 := n / 36524 in let n := n mod 36524 in
  let n4 := n / 1461 in let n := n mod 1461 in
  let n1 := n / 365 in let n := n mod 365 in
  let year := n400 * 400 + 1 + n100 * 100 + n4 * 4 + n1 in
  if (n1 =? 4) || (n100 =? 4) then (year - 1, 12, 31) else
  let leapyear := (n1 =? 3) && (negb (n4 =? 24) || (n100 =? 3)) in
  let month := Z.shiftr (n + 50) 5 in
  let preceding := days_before_month_tbl month + (if (2 <? month) && leapyear then 1 else 0) in
  let '(month, preceding) :=
    if n <? preceding then
      (month - 1, preceding - (if (month - 1 =? 2) && leapyear then 29
                               else days_in_month 2001 (month - 1)))
    else (month, preceding) in
  (year, month, n - preceding + 1).

(** [datetime(y, m, d)]. *)
Definition mk_date (y m d : Z) : datetime := mk_datetime (ymd2ord y m d) 0.

(** [dt + timedelta(days=k)]. *)
Definition add_days (t : datetime) (k : Z) : datetime := mk_datetime (dt_ord t + k) (dt_us t).

(** [dt1 < dt2]. *)
Definition dt_lt (t1 t2 : datetime) : bool :=
  (dt_ord t1 <? dt_ord t2) || ((dt_ord t1 =? dt_ord t2) && (dt_us t1 <? dt_us t2)).

Definition dt_year (t : datetime) : Z := let '(y, _, _) := ord2ymd (dt_ord t) in y.

(** [dt.strftime('%Y-%m-%d')]. *)
Definition strftime_ymd (t : datetime) : string :=
  let '(y, m, d) := ord2ymd (dt_ord t) in
  (py_str_int y ++ "-" ++ pad2 m ++ "-" ++ pad2 d)%string.

(* ------------------------------------------------------------------ *)
(** ** [agents/patent_agent.py] and [agents/internal_insights_agent.py] *)
(* ------------------------------------------------------------------ *)

Record PatentEntry := mk_patent_entry {
  patent_number : string;
  filing_date : string;
  expiry_date : string;
  status : string;
  title : string }.

Record PatentAnalysis := mk_patent_analysis {
  active_patents : Z;
  freedom_to_operate : string;
  next_expiry : option Z;          (* the year, or 'N/A' *)
  patent_timeline : list PatentEntry;
  key_insights : list string }.

Record Project := mk_project {
  proj_title : string;
  proj_date : string;
  proj_status : string;
  proj_summary : string }.

Record StrategicFit := mk_fit { fit_level : string; fit_score : Z; fit_rationale : string }.

Record Profile := mk_profile {
  previous_research : list Project;
  strategic_fit : StrategicFit;
  profile_insights : list string }.

(** [sorted(xs, reverse=True)] on ints. *)
Fixpoint insert_desc (x : Z) (l : list Z) : list Z :=
  match l with
  | [] => [x]
  | y :: t => if y >=? x then y :: insert_desc x t else x :: l
  end.

Definition sort_desc (l : list Z) : list Z := fold_right insert_desc [] (rev l).

Fixpoint str_lt (a b : string) : bool :=
  match a, b with
  | EmptyString, EmptyString => false
  | EmptyString, String _ _ => true
  | String _ _, EmptyString => false
  | String c a', String d b' =>
      if Nat.ltb (nat_of_ascii c) (nat_of_ascii d) then true
      else if Nat.eqb (nat_of_ascii c) (nat_of_ascii d) then str_lt a' b' else false
  end.

(** [sorted(projects, key=lambda x: x['date'], reverse=True)]: a stable
    sort in which equal keys keep their order. *)
Fixpoint insert_proj_desc (p : Project) (l : list Project) : list Project :=
  match l with
  | [] => [p]
  | q :: t => if str_lt (proj_date q) (proj_date p) then p :: l else q :: insert_proj_desc p t
  end.

Fixpoint sort_projects_desc_aux (acc l : list Project) : list Project :=
  match l with
  | [] => acc
  | p :: t => sort_projects_desc_aux (insert_proj_desc p acc) t
  end.

Definition sort_projects_desc (l : list Project) : list Project := sort_projects_desc_aux [] l.

Definition count {A} (f : A -> bool) (l : list A) : Z := Z.of_nat (List.length (filter f l)).

Section SimulatedAgents.

Variable G : Type.
(** [random.seed(n)] and the generator's 32-bit output. *)
Variable seed_fn : Z -> G.
Variable next32 : G -> Z * G.

Let randint := randint next32.
Let choice {A} := @choice G next32 A.

Definition composition_title (drug_name : string) : string :=
  ("Composition and method for " ++ drug_name ++ " formulation")%string.

Definition method_title (drug_name : string) : string :=
  ("Method of treating disease using " ++ drug_name)%string.

(** The body of the [for i, year in enumerate(filing_years)] loop of
    [get_patent_analysis]; [acc] is the timeline built so far and [nxt]
    is [next_expiry_date]. *)
Fixpoint patent_loop (drug_name : string) (now : datetime) (i : Z) (years : list Z)
    (acc : list PatentEntry) (nxt : option datetime) : RM G (list PatentEntry * option datetime) :=
  match years with
  | [] => ret (rev acc, nxt)
  | year :: ys =>
      month <- randint 1 12 ;;
      day <- randint 1 28 ;;
      let filing := mk_date year month day in
      let expiry := add_days filing (20 * 365) in
      let st := if dt_lt expiry now then "Expired"%string else "Active"%string in
      n1 <- randint 7 11 ;;
      n2 <- randint 100 999 ;;
      n3 <- randint 100 999 ;;
      n4 <- randint 1 2 ;;
      let entry := mk_patent_entry
        ("US" ++ py_str_int n1 ++ py_str_int n2 ++ py_str_int n3 ++ "B" ++ py_str_int n4)%string
        (strftime_ymd filing) (strftime_ymd expiry) st
        (if i mod 2 =? 0 then composition_title drug_name else method_title drug_name) in
      let nxt' :=
        if String.eqb st "Active" then
          match nxt with
          | None => Some expiry
          | Some e => if dt_lt expiry e then Some expiry else nxt
          end
        else nxt in
      patent_loop drug_name now (i + 1) ys (entry :: acc) nxt'
  end.

Definition fto_of (active_core : Z) (nxt : option datetime) (now : datetime) : string :=
  if active_core =? 0 then "High"%string
  else if (active_core <=? 2) &&
          (match nxt with Some e => dt_year e - dt_year now <? 3 | None => false end)
  then "Moderate"%string
  else "Low"%string.

Definition patent_body (drug_name : string) (now : datetime) : RM G PatentAnalysis :=
  active_patents_count <- randint 2 15 ;;
  years <- replicateM (Z.to_nat active_patents_count) (randint 2005 2022) ;;
  let filing_years := sort_desc years in
  res <- patent_loop drug_name now 0 filing_years [] None ;;
  let '(timeline, nxt) := res in
  let active_core_patents :=
    count (fun p => String.eqb (status p) "Active" &&
                    str_contains (py_lower (title p)) "composition"%string) timeline in
  let fto := fto_of active_core_patents nxt now in
  let ins1 := match nxt with
              | Some e => [("Key composition patent expires in " ++ py_str_int (dt_year e) ++
                            ", opening opportunities for generics.")%string]
              | None => []
              end in
  let ins2 := if String.eqb fto "Low" then
                "Low freedom to operate suggests high litigation risk for new market entrants."%string
              else if String.eqb fto "Moderate" then
                "Moderate FTO indicates potential for strategic partnerships or licensing."%string
              else "High FTO suggests a favorable environment for new product development."%string in
  let formulation_patents :=
    count (fun p => str_contains (py_lower (title p)) "formulation"%string) timeline in
  let ins3 := if 2 * formulation_patents >? active_patents_count then
                "A significant number of patents relate to formulation, indicating a mature product lifecycle."%string
              else "Focus on method-of-use patents suggests exploration of new therapeutic areas."%string in
  ret (mk_patent_analysis
         (count (fun p => String.eqb (status p) "Active") timeline)
         fto (option_map dt_year nxt) timeline (ins1 ++ [ins2; ins3])%list).

(** [PatentLandscapeAgent.get_patent_analysis(drug_name)], at the current
    time [now]: the module generator is re-seeded with
    [sum(ord(c) for c in drug_name.lower())]. *)
Definition get_patent_analysis (drug_name : string) (now : datetime) : option PatentAnalysis :=
  option_map fst (patent_body drug_name now (seed_fn (ord_sum (py_lower drug_name)))).


(** The [for i in range(num_projects)] loop of
    [InternalInsightsAgent._get_or_create_drug_profile]. *)
Fixpoint project_loop (drug_name : string) (k : nat) : RM G (list Project) :=
  match k with
  | O => ret []
  | S k' =>
      year <- randint 2018 2023 ;;
      st <- choice EmptyString ["Completed"; "On-Hold"; "Pitched"; "In-Progress"]%string ;;
      team <- choice EmptyString ["Oncology"; "Cardiology"; "Neurology"; "Immunology"]%string ;;
      let summary := ("Project in " ++ team ++ " exploring " ++ drug_name ++
                      " for a novel indication. Status: " ++ st ++ ".")%string in
      num <- randint 100 999 ;;
      q <- randint 1 4 ;;
      let p := mk_project (team ++ " Research Project #" ++ py_str_int num)%string
                          (py_str_int year ++ "-Q" ++ py_str_int q)%string st summary in
      rest <- project_loop drug_name k' ;;
      ret (p :: rest)
  end.

Definition profile_body (drug_name : string) : RM G Profile :=
  num_projects <- randint 0 4 ;;
  projects <- project_loop drug_name (Z.to_nat num_projects) ;;
  fit_score <- randint 30 95 ;;
  lr <- (if fit_score >? 75 then
           area <- choice EmptyString ["oncology"; "rare diseases"; "immunology"]%string ;;
           ret ("High"%string, ("Strongly aligns with our current focus on the " ++ area ++ " pipeline.")%string)
         else if fit_score >? 50 then
           ret ("Medium"%string, "Potential alignment with future strategic interests, but not a current top priority."%string)
         else
           ret ("Low"%string, "Does not align with our primary therapeutic areas. Represents a diversification opportunity."%string)) ;;
  let '(level, rationale) := lr in
  expertise <- choice EmptyString ["pharmacokinetics"; "formulation"; "toxicology"]%string ;;
  strength <- choice EmptyString ["strong"; "moderate"; "nascent"]%string ;;
  ret (mk_profile (sort_projects_desc projects) (mk_fit level fit_score rationale)
         [("Internal expertise in the " ++ expertise ++ " of " ++ drug_name ++
           " is considered " ++ strength ++ ".")%string;
          ("A total of " ++ py_str_int num_projects ++ " internal projects related to " ++
           drug_name ++ " have been identified.")%string;
          ("Strategic fit score of " ++ py_str_int fit_score ++ "/100 suggests a " ++
           py_lower level ++ " priority for further investment.")%string]).

(** The in-memory [_internal_db] of an [InternalInsightsAgent]. *)
Definition InternalDb : Type := list (string * Profile).

Fixpoint db_lookup (k : string) (db : InternalDb) : option Profile :=
  match db with
  | [] => None
  | (k', v) :: t => if String.eqb k k' then Some v else db_lookup k t
  end.

(** [_get_or_create_drug_profile(drug_name)]: returns the profile and the
    updated database ([None] only when the model's fuel runs out). *)
Definition get_or_create_drug_profile (db : InternalDb) (drug_name : string)
    : option (Profile * InternalDb) :=
  let drug_key := py_lower drug_name in
  match db_lookup drug_key db with
  | Some p => Some (p, db)
  | None =>
      match profile_body drug_name (seed_fn (ord_sum drug_key)) with
      | Some (p, _) => Some (p, (db ++ [(drug_key, p)])%list)
      | None => None
      end
  end.

End SimulatedAgents.

Arguments get_patent_analysis {G} _ _ _ _.
Arguments get_or_create_drug_profile {G} _ _ _ _.


(* ------------------------------------------------------------------ *)
(** ** Python values and exceptions *)
(* ------------------------------------------------------------------ *)

Record pyexc := mk_exc { exc_type : string; exc_msg : string }.

(** The values the orchestrator handles: JSON-like data and pandas
    DataFrames (a list of rows). *)
Inductive pyval :=
| PNone
| PBool (b : bool)
| PInt (z : Z)
| PStr (s : string)
| PList (l : list pyval)
| PDict (kv : list (string * pyval))
| PFrame (rows : list (list (string * pyval))).

(** A computation that returns a value or raises. *)
Inductive Res (A : Type) := Ok (x : A) | Err (e : pyexc).
Arguments Ok {A}.
Arguments Err {A}.

Definition frame_truth_error : pyexc :=
  mk_exc "ValueError" "The truth value of a DataFrame is ambiguous. Use a.empty, a.bool(), a.item(), a.any() or a.all().".

(** [bool(v)]; a DataFrame refuses to be converted. *)
Definition py_truth (v : pyval) : Res bool :=
  match v with
  | PNone => Ok false
  | PBool b => Ok b
  | PInt z => Ok (negb (z =? 0))
  | PStr s => Ok (negb (String.eqb s EmptyString))
  | PList l => Ok (negb (match l with [] => true | _ => false end))
  | PDict kv => Ok (negb (match kv with [] => true | _ => false end))
  | PFrame _ => Err frame_truth_error
  end.

(** [a or b]. *)
Definition py_or (a b : pyval) : Res pyval :=
  match py_truth a with
  | Ok true => Ok a
  | Ok false => Ok b
  | Err e => Err e
  end.

Fixpoint dict_get (k : string) (kv : list (string * pyval)) : option pyval :=
  match kv with
  | [] => None
  | (k', v) :: t => if String.eqb k k' then Some v else dict_get k t
  end.

(** [d[k] = v] on an insertion-ordered dict. *)
Fixpoint dict_set (k : string) (v : pyval) (kv : list (string * pyval)) : list (string * pyval) :=
  match kv with
  | [] => [(k, v)]
  | (k', v') :: t => if String.eqb k k' then (k, v) :: t else (k', v') :: dict_set k v t
  end.

(* ------------------------------------------------------------------ *)
(** ** The orchestrator [analyze_drug] of [app.py] *)
(* ------------------------------------------------------------------ *)

(** The six tasks of [analyze_drug], in the order of [results]. *)
Inductive agent := FDA | Trade | Patent | Trials | WebIntel | Internal.

(** What [asyncio.gather(..., return_exceptions=True)] yields for a task. *)
Inductive task_result := Returned (v : pyval) | Raised (e : pyexc).

(** [str.isspace] on the code points 0..255. *)
Definition is_py_space (c : ascii) : bool :=
  let n := nat_of_ascii c in
  ((9 <=? n)%nat && (n <=? 13)%nat) || ((28 <=? n)%nat && (n <=? 32)%nat)
  || (n =? 133)%nat || (n =? 160)%nat.

Fixpoint all_space (s : string) : bool :=
  match s with
  | EmptyString => true
  | String c s' => is_py_space c && all_space s'
  end.

(** [validate_drug_name]: [not drug_name or not drug_name.strip()] fails. *)
Definition validate_drug_name (drug_name : string) : bool :=
  negb (String.eqb drug_name EmptyString) && negb (all_space drug_name).

(** The orchestrator's store: [st.session_state] and the number of Source
    Agent tasks dispatched so far. *)
Record ostate := mk_ostate { session_state : list (string * pyval); dispatched : nat }.

Definition AM (A : Type) : Type := ostate -> Res A * ostate.

Definition aret {A} (x : A) : AM A := fun s => (Ok x, s).
Definition abind {A B} (m : AM A) (f : A -> AM B) : AM B :=
  fun s => match m s with (Ok x, s') => f x s' | (Err e, s') => (Err e, s') end.
Definition araise {A} (e : pyexc) : AM A := fun s => (Err e, s).
Definition alift {A} (r : Res A) : AM A := fun s => (r, s).

Notation "'let!' x := m 'in' k" := (abind m (fun x => k)) (at level 200, x name, m at level 100).

Definition session_get (k : string) : AM (option pyval) :=
  fun s => (Ok (dict_get k (session_state s)), s).

Definition session_set (k : string) (v : pyval) : AM unit :=
  fun s => (Ok tt, mk_ostate (dict_set k v (session_state s)) (dispatched s)).

(** Creating the six [asyncio.create_task(asyncio.to_thread(...))] tasks. *)
Definition dispatch_tasks : AM unit :=
  fun s => (Ok tt, mk_ostate (session_state s) (dispatched s + 6)).

Section Orchestrator.

(** [hashlib.md5(key_str.encode()).hexdigest()]. *)
Variable md5_hexdigest : string -> string.
(** [send_progress_update] to the client's websocket, by progress percent:
    [None] when it returns, [Some e] when it raises [e]. *)
Variable progress_sink : Z -> option pyexc.

Definition get_analysis_cache_key (drug_name therapeutic_area : string) : string :=
  md5_hexdigest (py_lower drug_name ++ "_" ++ py_lower therapeutic_area)%string.

Definition send_progress (percent : Z) : AM unit :=
  fun s => match progress_sink percent with None => (Ok tt, s) | Some e => (Err e, s) end.

(** [update_progress(stage, progress, 5)] sends [int(progress / 5 * 100)]. *)
Definition update_progress (progress : Z) : AM unit := send_progress (progress * 20).

(** [process_result(result, default)]. *)
Definition process_result (r : task_result) (default : pyval) : Res pyval :=
  match r with
  | Raised _ => py_or default (PDict [])
  | Returned PNone => Ok (PDict [])
  | Returned v => Ok v
  end.

(** [fda_data.to_dict(orient='records')] when [fda_data] has [to_dict]. *)
Definition to_dict_records (v : pyval) : pyval :=
  match v with
  | PFrame rows => PList (map PDict rows)
  | _ => v
  end.

Definition patent_default : pyval :=
  PDict [("active_patents", PInt 0); ("freedom_to_operate", PStr "N/A");
         ("key_insights", PList [PStr "No patent data available"])].
Definition trials_default : pyval :=
  PDict [("phase_ii_trials", PInt 0); ("phase_iii_trials", PInt 0);
         ("key_insights", PList [PStr "No clinical trials data available"])].
Definition web_default : pyval :=
  PDict [("sources", PList []); ("findings", PList [PStr "No web intelligence data available"])].
Definition internal_default : pyval :=
  PDict [("previous_research", PList []); ("strategic_fit", PStr "N/A");
         ("key_insights", PList [PStr "No internal insights available"])].

(** The [try] block of [analyze_drug(drug_name, therapeutic_area)];
    [now_iso] is [datetime.now().isoformat()] and [results] what the
    gathered tasks produced. *)
Definition analyze_try (drug_name therapeutic_area now_iso : string)
    (results : agent -> task_result) : AM pyval :=
  if negb (validate_drug_name drug_name) then araise (mk_exc "ValueError" "Invalid drug name") else
  let cache_key := get_analysis_cache_key drug_name therapeutic_area in
  let! cached := session_get cache_key in
  match cached with
  | Some v => aret v
  | None =>
    let! _ := update_progress 1 in
    let! _ := dispatch_tasks in
    let! _ := update_progress 2 in
    let! fda0 := alift (process_result (results FDA) (PFrame [])) in
    let fda_data := to_dict_records fda0 in
    let! trade_data := alift (process_result (results Trade) (PDict [])) in
    let! patent_analysis := alift (process_result (results Patent) PNone) in
    let! clinical_trials := alift (process_result (results Trials) PNone) in
    let! web_intel := alift (process_result (results WebIntel) PNone) in
    let! internal_insights := alift (process_result (results Internal) PNone) in
    let! _ := update_progress 3 in
    let! area := alift (py_or (PStr therapeutic_area) (PStr "General")) in
    let! pa := alift (py_or patent_analysis patent_default) in
    let! ct := alift (py_or clinical_trials trials_default) in
    let! wi := alift (py_or web_intel web_default) in
    let! ii := alift (py_or internal_insights internal_default) in
    let analysis := PDict [("drug_name", PStr drug_name); ("therapeutic_area", area);
                           ("timestamp", PStr now_iso); ("adverse_events", fda_data);
                           ("trade_data", trade_data); ("patent_analysis", pa);
                           ("clinical_trials", ct); ("web_intelligence", wi);
                           ("internal_insights", ii)] in
    let! _ := update_progress 4 in
    let! _ := session_set cache_key (PDict [("status", PStr "success"); ("analysis", analysis)]) in
    let! _ := update_progress 5 in
    let! stored := session_get cache_key in
    match stored with
    | Some v => aret v
    | None => araise (mk_exc "KeyError" cache_key)
    end
  end.

(** [analyze_drug]: the [except Exception] handler reports the error on the
    progress channel and returns an error dict. *)
Definition analyze_drug (drug_name therapeutic_area now_iso : string)
    (results : agent -> task_result) : AM pyval :=
  fun s =>
    match analyze_try drug_name therapeutic_area now_iso results s with
    | (Ok v, s') => (Ok v, s')
    | (Err e, s') =>
        let error_msg := ("Analysis error: " ++ exc_msg e)%string in
        match progress_sink 0 with
        | None => (Ok (PDict [("status", PStr "error"); ("message", PStr error_msg)]), s')
        | Some e' => (Err e', s')
        end
    end.

End Orchestrator.

Definition record_field (k : string) (v : pyval) : option pyval :=
  match v with PDict kv => dict_get k kv | _ => None end.

Definition source_keys : list string :=
  ["adverse_events"; "trade_data"; "patent_analysis"; "clinical_trials";
   "web_intelligence"; "internal_insights"]%string.

(* ------------------------------------------------------------------ *)
(** ** The request wrappers of the agents *)
(* ------------------------------------------------------------------ *)

(** Times are microseconds ([time.time()] and [time.sleep] take float
    seconds). *)
Definition second : Z := 1000000.

Inductive json_body := JsonOk (v : pyval) | JsonMalformed.

(** What one [requests.get] call meets upstream. *)
Inductive http_event :=
| Response (status_code : Z) (retry_after : option string) (body : json_body)
| Timeout
| ConnectionError.

(** Whether [response.raise_for_status()] raises [HTTPError]. *)
Definition http_error_status (code : Z) : bool := (400 <=? code) && (code <? 600).

(** The outcome of [get]; [raise_for_status]; [json()] inside the [try]:
    [inl v] is the returned payload, [inr e] an exception derived from
    [requests.exceptions.RequestException] (with requests >= 2.27 an
    unparseable body raises [requests.exceptions.JSONDecodeError], one of
    them). *)
Definition request_outcome (ev : http_event) : pyval + pyexc :=
  match ev with
  | Timeout => inr (mk_exc "Timeout" "Read timed out.")
  | ConnectionError => inr (mk_exc "ConnectionError" "Connection refused")
  | Response code _ body =>
      if http_error_status code then inr (mk_exc "HTTPError" (py_str_int code))
      else match body with
           | JsonOk v => inl v
           | JsonMalformed => inr (mk_exc "JSONDecodeError" "Expecting value")
           end
  end.

(** What the client does over time. *)
Inductive client_event :=
| EvRequest (at_time : Z)      (* [requests.get] issued *)
| EvThrottle (d : Z)           (* the sleep of [_rate_limit] *)
| EvBackoff (d : Z).           (* a retry sleep *)

(** The rate limiter of [ClinicalTrialsAgent]. *)
Record limiter := mk_limiter { last_request_time : Z; min_request_interval : Z }.

(** [ClinicalTrialsAgent.__init__]: [last_request_time = 0],
    [min_request_interval = 1.0]. *)
Definition clinical_limiter_init : limiter := mk_limiter 0 second.

(** [_rate_limit] called when [time.time()] reads [now]; a sleep of [d]
    lasts [d + overshoot] ([time.sleep] sleeps at least [d]). Returns the
    clock after the call, the sleep if any, and the new limiter. *)
Definition rate_limit (now : Z) (overshoot : N) (l : limiter) : Z * list client_event * limiter :=
  let elapsed := now - last_request_time l in
  if elapsed <? min_request_interval l then
    let d := min_request_interval l - elapsed in
    let now' := now + d + Z.of_N overshoot in
    (now', [EvThrottle d], mk_limiter now' (min_request_interval l))
  else (now, [], mk_limiter now (min_request_interval l)).

(** A sequence of [_rate_limit] calls on one instance: before each call the
    clock moves by an arbitrary amount (the request, the caller's own work;
    it may even be set back), then the call sleeps with some overshoot.
    Returns the [last_request_time] stamps, one per call. *)
Fixpoint rate_limit_run (now : Z) (l : limiter) (steps : list (Z * N)) : list Z :=
  match steps with
  | [] => []
  | (gap, overshoot) :: rest =>
      let '(now', _, l') := rate_limit (now + gap) overshoot l in
      last_request_time l' :: rate_limit_run now' l' rest
  end.

(** Consecutive elements at least [d] apart. *)
Fixpoint spaced (d : Z) (l : list Z) : Prop :=
  match l with
  | x :: ((y :: _) as t) => d <= y - x /\ spaced d t
  | _ => True
  end.

(** The world seen by one wrapper call: the [i]-th request's upstream
    event, and the [i]-th [random.uniform(0, 1)] draw in microseconds. *)
Record world := mk_world { upstream : nat -> http_event; jitter : nat -> Z }.

Record client := mk_client { clock : Z; lim : limiter; trace : list client_event }.

(** [ClinicalTrialsAgent._get_with_retry(url, params, max_retries)]: the
    loop [for attempt in range(max_retries)], with [fuel] the attempts
    left. Requests take no time in this model. *)
Fixpoint get_with_retry_loop (w : world) (max_retries attempt fuel : nat) (c : client)
    : option pyval * client :=
  match fuel with
  | O => (None, c)     (* the loop ends: the implicit [return None] *)
  | S fuel' =>
      let '(now, throttle, l) := rate_limit (clock c) 0%N (lim c) in
      let c1 := mk_client now l (trace c ++ throttle ++ [EvRequest now])%list in
      match request_outcome (upstream w attempt) with
      | inl v => (Some v, c1)
      | inr _ =>
          if (attempt =? max_retries - 1)%nat then (None, c1)
          else
            let d := 2 ^ Z.of_nat attempt * second + jitter w attempt in
            get_with_retry_loop w max_retries (S attempt) fuel'
              (mk_client (clock c1 + d) (lim c1) (trace c1 ++ [EvBackoff d])%list)
      end
  end.

Definition get_with_retry (w : world) (max_retries : nat) (c : client) : option pyval * client :=
  get_with_retry_loop w max_retries 0 max_retries c.

(** [TradeAgent._make_api_request(base_url, endpoint, params, retries)]:
    returns the payload and the number of requests issued. *)
Fixpoint trade_request_loop (w : world) (retries attempt fuel : nat) : option pyval * nat :=
  match fuel with
  | O => (None, 0%nat)
  | S fuel' =>
      match request_outcome (upstream w attempt) with
      | inl v => (Some v, 1%nat)
      | inr _ =>
          (* both [except] clauses: [continue] unless this was the last attempt *)
          if (attempt <? retries - 1)%nat then
            let '(r, n) := trade_request_loop w retries (S attempt) fuel' in (r, S n)
          else (None, 1%nat)
      end
  end.

Definition trade_make_api_request (w : world) (retries : nat) : option pyval * nat :=
  trade_request_loop w retries 0 retries.

(** The names a module's top-level imports bind. *)
Definition fda_agent_globals : list string :=
  ["os"; "requests"; "pd"; "Dict"; "List"; "Optional"; "Union"; "logging";
   "datetime"; "timedelta"; "FDAAgent"].

Definition clinical_trials_agent_globals : list string :=
  ["requests"; "Dict"; "List"; "Any"; "Optional"; "Union"; "logging"; "datetime";
   "timedelta"; "json"; "random"; "time"; "quote_plus"; "logger"; "ClinicalTrialsAgent"].

(** [time.sleep(secs)] evaluated in a module whose globals are [globals]. *)
Definition time_sleep (globals : list string) (d : Z) (c : client) : Res client :=
  if existsb (String.eqb "time") globals then
    if d <? 0 then Err (mk_exc "ValueError" "sleep length must be non-negative")
    else Ok (mk_client (clock c + d) (lim c) (trace c ++ [EvBackoff d])%list)
  else Err (mk_exc "NameError" "name 'time' is not defined").

Definition is_ascii_digit (c : ascii) : bool :=
  let n := nat_of_ascii c in ((48 <=? n)%nat && (n <=? 57)%nat).

(** Digits with single underscores between them, as [int()] accepts. *)
Fixpoint parse_digits (s : string) (acc : Z) (prev_digit : bool) : option Z :=
  match s with
  | EmptyString => if prev_digit then Some acc else None
  | String c s' =>
      if is_ascii_digit c then parse_digits s' (acc * 10 + (Z.of_nat (nat_of_ascii c) - 48)) true
      else if Ascii.eqb c "_" then
        match s' with
        | String d _ => if prev_digit && is_ascii_digit d then parse_digits s' acc false else None
        | EmptyString => None
        end
      else None
  end.

Fixpoint strip_leading (s : string) : string :=
  match s with
  | String c s' => if is_py_space c then strip_leading s' else s
  | EmptyString => EmptyString
  end.

Fixpoint str_rev (s : string) : string :=
  match s with
  | EmptyString => EmptyString
  | String c s' => str_rev s' ++ String c EmptyString
  end.

(** [int(s)] for a base-10 string. *)
Definition py_int (s : string) : Res Z :=
  let t := str_rev (strip_leading (str_rev (strip_leading s))) in
  let r := match t with
           | String c t' =>
               if Ascii.eqb c "-" then option_map Z.opp (parse_digits t' 0 false)
               else if Ascii.eqb c "+" then parse_digits t' 0 false
               else parse_digits t 0 false
           | EmptyString => None
           end in
  match r with
  | Some n => Ok n
  | None => Err (mk_exc "ValueError" ("invalid literal for int() with base 10: '" ++ s ++ "'"))
  end.

(** [FDAAgent._make_api_request(url, max_retries)], its [time.sleep]s
    looked up in the module globals [globals]. *)
Fixpoint fda_request_loop (globals : list string) (w : world) (attempt fuel : nat) (c : client)
    : Res (option pyval) * client :=
  match fuel with
  | O => (Ok None, c)
  | S fuel' =>
      let c1 := mk_client (clock c) (lim c) (trace c ++ [EvRequest (clock c)])%list in
      let ev := upstream w attempt in
      let on_request_exception :=
        match time_sleep globals (Z.min (2 ^ Z.of_nat attempt) 10 * second) c1 with
        | Ok c2 => fda_request_loop globals w (S attempt) fuel' c2
        | Err e => (Err e, c1)
        end in
      match ev with
      | Response 429 ra _ =>
          let header := match ra with Some s => py_int s | None => Ok 5 end in
          match header with
          | Err e => (Err e, c1)
          | Ok retry_after =>
              match time_sleep globals (retry_after * second) c1 with
              | Ok c2 => fda_request_loop globals w (S attempt) fuel' c2
              | Err e => (Err e, c1)
              end
          end
      | _ =>
          match request_outcome ev with
          | inl v => (Ok (Some v), c1)
          | inr _ => on_request_exception
          end
      end
  end.

Definition fda_make_api_request (w : world) (max_retries : nat) (c : client) : Res (option pyval) * client :=
  fda_request_loop fda_agent_globals w 0 max_retries c.

(* ------------------------------------------------------------------ *)
(** ** The TTL caches of [WebIntelligenceAgent] and [TradeAgent] *)
(* ------------------------------------------------------------------ *)

(** A cache maps a key to the stored data and its timestamp. *)
Definition ttl_cache : Type := list (string * (pyval * Z)).

Fixpoint cache_lookup (k : string) (c : ttl_cache) : option (pyval * Z) :=
  match c with
  | [] => None
  | (k', e) :: t => if String.eqb k k' then Some e else cache_lookup k t
  end.

Fixpoint cache_store (k : string) (e : pyval * Z) (c : ttl_cache) : ttl_cache :=
  match c with
  | [] => [(k, e)]
  | (k', e') :: t => if String.eqb k k' then (k, e) :: t else (k', e') :: cache_store k e t
  end.

(** [_get_cached(key)] / [_get_cached_data(key)] at time [now]. *)
Definition get_cached (ttl : Z) (c : ttl_cache) (key : string) (now : Z) : option pyval :=
  match cache_lookup key c with
  | Some (data, timestamp) => if now - timestamp <? ttl then Some data else None
  | None => None
  end.

(** [_set_cached(key, data)] / [_set_cached_data(key, data)] at [now]. *)
Definition set_cached (c : ttl_cache) (key : string) (data : pyval) (now : Z) : ttl_cache :=
  cache_store key (data, now) c.

(** [timedelta(hours=6)] and [3600] seconds. *)
Definition web_intel_cache_ttl : Z := 6 * 3600 * second.
Definition trade_cache_ttl : Z := 3600 * second.

Inductive cache_op := CacheGet (key : string) (now : Z) | CacheSet (key : string) (data : pyval) (now : Z).

(** A sequence of reads and writes on one cache: the cache afterwards and
    the answers of the reads. *)
Fixpoint cache_run (ttl : Z) (c : ttl_cache) (ops : list cache_op) : ttl_cache * list (option pyval) :=
  match ops with
  | [] => (c, [])
  | CacheGet k now :: rest =>
      let '(c', rs) := cache_run ttl c rest in (c', get_cached ttl c k now :: rs)
  | CacheSet k d now :: rest => cache_run ttl (set_cached c k d now) rest
  end.

Fixpoint requests_of (evs : list client_event) : nat :=
  match evs with
  | [] => 0%nat
  | EvRequest _ :: t => S (requests_of t)
  | _ :: t => requests_of t
  end.

Fixpoint backoffs_of (evs : list client_event) : list Z :=
  match evs with
  | [] => []
  | EvBackoff d :: t => d :: backoffs_of t
  | _ :: t => backoffs_of t
  end.

(** The wait before retry [k + 1] of [_get_with_retry]: [2 ** k] seconds
    plus the jitter [random.uniform(0, 1)]. *)
Definition backoff_wait (w : world) (k : nat) : Z := 2 ^ Z.of_nat k * second + jitter w k.

Definition request_fails (ev : http_event) : bool :=
  match request_outcome ev with inl _ => false | inr _ => true end.

(** ** Inputs of the properties *)

Definition c0 : client := mk_client (1760000000 * second) clinical_limiter_init [].

Definition timeout_world : world := mk_world (fun _ => Timeout) (fun _ => 0).

Definition not_found_world : world :=
  mk_world (fun _ => Response 404 None (JsonOk (PDict []))) (fun _ => 500000).

Definition name_error : pyexc := mk_exc "NameError" "name 'time' is not defined".

Definition retry_after_world : world :=
  mk_world (fun i => match i with
                     | O => Response 429 (Some "3") (JsonOk PNone)
                     | _ => Response 200 None (JsonOk (PDict [("results", PList [])]))
                     end) (fun _ => 0).

(** The key of each source in the [analysis] dict, and the entry that
    stands for it when its task raised. *)
Definition source_key (a : agent) : string :=
  match a with
  | FDA => "adverse_events" | Trade => "trade_data" | Patent => "patent_analysis"
  | Trials => "clinical_trials" | WebIntel => "web_intelligence" | Internal => "internal_insights"
  end.

Definition source_fallback (a : agent) : pyval :=
  match a with
  | FDA => PList [] | Trade => PDict [] | Patent => patent_default
  | Trials => trials_default | WebIntel => web_default | Internal => internal_default
  end.

Definition md5_id (s : string) : string := s.

Definition healthy_sink : Z -> option pyexc := fun _ => None.


Definition all_ok (a : agent) : task_result := Returned (PDict [("ok", PBool true)]).

Definition trials_raises (a : agent) : task_result :=
  match a with
  | Trials => Raised (mk_exc "Timeout" "read timed out")
  | _ => Returned (PDict [("ok", PBool true)])
  end.

Definition fda_raises (a : agent) : task_result :=
  match a with
  | FDA => Raised (mk_exc "Timeout" "read timed out")
  | _ => Returned (PDict [("ok", PBool true)])
  end.



(** ** Relations for the simulated agents *)

(** Two strings that are equal, or that differ only in one place where
    the name [a] stands in the first and the name [b] in the second. *)
Definition name_rel (a b x y : string) : Prop :=
  x = y \/ exists p q, x = (p ++ a ++ q)%string /\ y = (p ++ b ++ q)%string.

Definition option_rel {A B} (R : A -> B -> Prop) (x : option A) (y : option B) : Prop :=
  match x, y with
  | Some u, Some v => R u v
  | None, None => True
  | _, _ => False
  end.

(** The two title templates of [get_patent_analysis], for both names. *)
Definition title_rel (a b x y : string) : Prop :=
  (x = composition_title a /\ y = composition_title b) \/ (x = method_title a /\ y = method_title b).

Definition entry_rel (R : string -> string -> Prop) (e1 e2 : PatentEntry) : Prop :=
  patent_number e1 = patent_number e2 /\ filing_date e1 = filing_date e2 /\
  expiry_date e1 = expiry_date e2 /\ status e1 = status e2 /\ R (title e1) (title e2).

(** Patent analyses equal up to the name in the titles. *)
Definition patent_rel (a b : string) (p1 p2 : PatentAnalysis) : Prop :=
  active_patents p1 = active_patents p2 /\ freedom_to_operate p1 = freedom_to_operate p2 /\
  next_expiry p1 = next_expiry p2 /\ key_insights p1 = key_insights p2 /\
  Forall2 (entry_rel (name_rel a b)) (patent_timeline p1) (patent_timeline p2).

Definition project_rel (a b : string) (p1 p2 : Project) : Prop :=
  proj_title p1 = proj_title p2 /\ proj_date p1 = proj_date p2 /\
  proj_status p1 = proj_status p2 /\ name_rel a b (proj_summary p1) (proj_summary p2).

(** Internal profiles equal up to the name in the summaries and insights. *)
Definition profile_rel (a b : string) (p1 p2 : Profile) : Prop :=
  Forall2 (project_rel a b) (previous_research p1) (previous_research p2) /\
  strategic_fit p1 = strategic_fit p2 /\
  Forall2 (name_rel a b) (profile_insights p1) (profile_insights p2).

(** Related results of two runs of the generator that end in the same state. *)
Definition rm_rel {G A B} (R : A -> B -> Prop) : option (A * G) -> option (B * G) -> Prop :=
  option_rel (fun u v => R (fst u) (fst v) /\ snd u = snd v).

(** The current date of the runs below. *)
Definition today : datetime := mk_datetime (ymd2ord 2026 10 16) 0.


(** A clinical trials API that times out twice, then answers. *)
Definition recover_world : world :=
  mk_world (fun i => match i with 0%nat | 1%nat => Timeout | _ => Response 200 None (JsonOk (PInt 7)) end)
           (fun _ => 250000).

(** The order of [sorted(projects, key=lambda x: x['date'], reverse=True)]:
    [a] may come before [b]. *)
Definition newer_or_same (a b : Project) : Prop := str_lt (proj_date a) (proj_date b) = false.

(** ** [WebIntelligenceAgent.search_evidence] *)

(** What the two searches of one [search_evidence] call give.
    [_search_pubmed] returns the title (as [str] formats it) and source of
    each article, an empty list when a [RequestException] is caught, or
    raises any other exception (an [ET.ParseError] of the esearch reply, a
    [KeyError] when the summary lacks ['result'], ...).
    [_search_google_news] catches every exception and returns its entries. *)
Record web_world := mk_web_world {
  pubmed_results : Res (list (string * string));
  news_results : list pyval }.

(** [f"{f['title']} (Source: {f['source']})"]. *)
Definition finding_line (f : string * string) : string :=
  (fst f ++ " (Source: " ++ snd f ++ ")")%string.

(** [set.add] on the elements of a set of strings. [list(sources)] takes
    the order of the string hashes; only membership is used below. *)
Definition set_add (x : string) (l : list string) : list string :=
  if existsb (String.eqb x) l then l else (l ++ [x])%list.

(** [search_evidence(query)] on the cache [c]; [t_get] and [t_set] are
    the [datetime.now()] readings of [_get_cached] and [_set_cached].
    Returns the result, the cache afterwards, and whether the result was
    searched (rather than read from the cache). *)
Definition search_evidence (c : ttl_cache) (query : string) (t_get t_set : Z) (ww : web_world)
    : Res (pyval * ttl_cache * bool) :=
  let cache_key := ("web_intel_" ++ py_lower query)%string in
  let search :=
    match pubmed_results ww with
    | Err e => Err e
    | Ok pubmed_findings =>
        let news_articles := news_results ww in
        let findings := match map finding_line pubmed_findings with
                        | [] => ["No recent scientific literature found on PubMed."]
                        | fs => fs
                        end in
        let sources := if negb (match pubmed_findings with [] => true | _ => false end)
                       then set_add "PubMed" [] else [] in
        let sources := if negb (match news_articles with [] => true | _ => false end)
                       then set_add "Google News" sources else sources in
        let result := PDict [("sources", PList (map PStr sources));
                             ("findings", PList (map PStr findings));
                             ("news", PList news_articles)] in
        Ok (result, set_cached c cache_key result t_set, true)
    end in
  match get_cached web_intel_cache_ttl c cache_key t_get with
  | Some cached_data =>
      match py_truth cached_data with
      | Ok true => Ok (cached_data, c, false)
      | Ok false => search
      | Err e => Err e
      end
  | None => search
  end.

(** ** [ClinicalTrialsAgent]: processing and searching *)

Definition rbind {A B} (r : Res A) (f : A -> Res B) : Res B :=
  match r with Ok x => f x | Err e => Err e end.

(** [d.get(k, default)] on a dict. *)
Definition py_get (kv : list (string * pyval)) (k : string) (default : pyval) : pyval :=
  match dict_get k kv with Some v => v | None => default end.

(** [d[k]]. *)
Definition py_index (kv : list (string * pyval)) (k : string) : Res pyval :=
  match dict_get k kv with Some v => Ok v | None => Err (mk_exc "KeyError" k) end.

Fixpoint str_chars (s : string) : list pyval :=
  match s with
  | EmptyString => []
  | String c s' => PStr (String c EmptyString) :: str_chars s'
  end.

(** [seq[:n]] followed by iteration. *)
Definition py_slice_iter (v : pyval) (n : nat) : Res (list pyval) :=
  match v with
  | PList l => Ok (firstn n l)
  | PStr s => Ok (firstn n (str_chars s))
  | _ => Err (mk_exc "TypeError" "object is not subscriptable")
  end.

(** [', '.join(parts)]. *)
Fixpoint py_join (sep : string) (parts : list pyval) : Res string :=
  match parts with
  | [] => Ok EmptyString
  | [PStr s] => Ok s
  | PStr s :: rest => rbind (py_join sep rest) (fun t => Ok (s ++ sep ++ t)%string)
  | _ => Err (mk_exc "TypeError" "sequence item: expected str instance")
  end.

(** [a != 'N/A'] *)
Definition py_ne_str (v : pyval) (s : string) : bool :=
  match v with PStr t => negb (String.eqb t s) | _ => true end.

Definition phase_ii_markers : list string := ["phase 2"; "phase ii"; "phase2"; "phaseii"].
Definition phase_iii_markers : list string := ["phase 3"; "phase iii"; "phase3"; "phaseiii"].

Section ClinicalTrials.

(** [self._process_trial(study)]: [None] when it returns [None], which it
    also does when its own [try] block raises. *)
Variable process_trial : pyval -> option (list (string * pyval)).
(** [str(v)] and [urllib.parse.quote_plus]. *)
Variable py_str : pyval -> string.
Variable quote_plus : string -> string.

(** The state of the loop of [_process_api_response]: [phase_ii],
    [phase_iii], [recent_trials] and [insights], lists in reverse. *)
Record trial_acc := mk_trial_acc { n_ii : Z; n_iii : Z; trials_rev : list pyval; insights_rev : list pyval }.

Definition process_study (acc : trial_acc) (study : pyval) : Res trial_acc :=
  match process_trial study with
  | None => Ok acc
  | Some [] => Ok acc
  | Some trial =>
      let phase_lower := py_lower (py_str (py_get trial "phase" (PStr ""))) in
      let n2 := if existsb (str_contains phase_lower) phase_ii_markers then n_ii acc + 1 else n_ii acc in
      let n3 := if existsb (str_contains phase_lower) phase_iii_markers then n_iii acc + 1 else n_iii acc in
      let parts1 := if py_ne_str (py_get trial "phase" (PStr "N/A")) "N/A" then
                      rbind (py_index trial "phase") (fun p => Ok [p]) else Ok [] in
      rbind parts1 (fun parts1 =>
      let parts2 := if py_ne_str (py_get trial "status" (PStr "N/A")) "N/A" then
                      rbind (py_index trial "status") (fun s => Ok (parts1 ++ [s])%list) else Ok parts1 in
      rbind parts2 (fun insight_parts =>
      rbind (py_index trial "title") (fun title =>
      rbind (match insight_parts with
             | [] => Ok (title, trial)
             | _ => rbind (py_join ", " insight_parts) (fun j =>
                      let suffix := (" (" ++ j ++ ")")%string in
                      match title with
                      | PStr t => Ok (PStr (t ++ suffix), trial)
                      (* [list += str] extends the list in place, which is
                         also the title held by the appended trial *)
                      | PList l => let l' := PList (l ++ str_chars suffix)%list in Ok (l', dict_set "title" l' trial)
                      | _ => Err (mk_exc "TypeError" "unsupported operand type(s) for +=")
                      end)
             end) (fun '(insight, trial') =>
      Ok (mk_trial_acc n2 n3 (PDict trial' :: trials_rev acc) (insight :: insights_rev acc))))))
  end.

Fixpoint process_studies (acc : trial_acc) (studies : list pyval) : Res trial_acc :=
  match studies with
  | [] => Ok acc
  | s :: rest => rbind (process_study acc s) (fun acc' => process_studies acc' rest)
  end.

(** [_process_api_response(data)]. *)
Definition process_api_response (data : list (string * pyval)) : Res (list (string * pyval)) :=
  rbind (py_slice_iter (py_get data "studies" (PList [])) 10) (fun studies =>
  rbind (process_studies (mk_trial_acc 0 0 [] []) studies) (fun acc =>
  Ok [("phase_ii", PInt (n_ii acc)); ("phase_iii", PInt (n_iii acc));
      ("trials", PList (rev (trials_rev acc)));
      ("insights", PList (firstn 5 (rev (insights_rev acc))));
      ("source", PStr "clinicaltrials.gov");
      ("total_count", py_get data "totalCount" (PInt 0))])).


(** [_search_clinicaltrials(drug_name, condition)]: one [_get_with_retry]
    call, whose requests meet [w]. [data] comes from [response.json()]. *)
Definition search_clinicaltrials (w : world) (c : client) : option (list (string * pyval)) * client :=
  let '(data, c') := get_with_retry w 3 c in
  (match data with
   | Some (PDict ((_ :: _) as kv)) =>
       match py_truth (py_get kv "studies" PNone) with
       | Ok true =>
           match process_api_response kv with
           | Ok processed =>
               match py_get processed "trials" PNone with
               | PList (_ :: _) => Some processed
               | _ => None
               end
           | Err _ => None        (* the [except Exception] of the search *)
           end
       | _ => None
       end
   | _ => None    (* no data, falsy data, or [data.get] raising on a non-dict *)
   end, c').

Definition search_url (drug_name : string) : string :=
  ("https://clinicaltrials.gov/ct2/results?term=" ++ quote_plus drug_name)%string.

Definition no_trials_found (drug_name : string) : pyval :=
  PDict [("message", PStr "No clinical trials found for the specified criteria.");
         ("suggestion", PStr ("Try checking the drug name spelling or try a different name. " ++
                              "You can also try a more general search term or check the ClinicalTrials.gov website directly."));
         ("status", PStr "No trials found");
         ("phase_ii_trials", PInt 0); ("phase_iii_trials", PInt 0);
         ("recent_trials", PList []);
         ("key_insights", PList [PStr "No clinical trial data available for this search."]);
         ("source", PStr "clinicaltrials.gov");
         ("search_url", PStr (search_url drug_name))].

Definition trials_error (drug_name : string) (e : pyexc) : pyval :=
  PDict [("error", PStr ("An error occurred while fetching clinical trials: " ++ exc_msg e));
         ("status", PStr "Error processing request");
         ("suggestion", PStr ("Please try again later or <a href='" ++ search_url drug_name ++
                              "' target='_blank'>search on ClinicalTrials.gov</a> directly."));
         ("phase_ii_trials", PInt 0); ("phase_iii_trials", PInt 0);
         ("recent_trials", PList []);
         ("key_insights", PList [PStr "Error loading clinical trial data."]);
         ("source", PStr "clinicaltrials.gov");
         ("search_url", PStr (search_url drug_name))].

(** [get_clinical_trials(drug_name, condition)]: the search meets [w1],
    the broader search without the condition [w2]. [_search_clinicaltrials]
    returns a dict only when its [trials] are a nonempty list, so each test
    [not result or not result.get('trials')] is [result is None]. *)
Definition get_clinical_trials (w1 w2 : world) (drug_name condition : string) (c : client) : pyval * client :=
  let '(result, c1) := search_clinicaltrials w1 c in
  let '(result, c2) :=
    match result with
    | Some r => (Some r, c1)
    | None => if negb (String.eqb condition "") then search_clinicaltrials w2 c1 else (None, c1)
    end in
  match result with
  | None => (no_trials_found drug_name, c2)
  | Some r =>
      let out :=
        rbind (py_index r "phase_ii") (fun p2 =>
        rbind (py_index r "phase_iii") (fun p3 =>
        rbind (py_index r "trials") (fun trials =>
        rbind (py_index r "insights") (fun ins =>
        let n := py_get r "total_count"
                   (PInt (Z.of_nat (match py_get r "trials" (PList []) with PList l => List.length l | _ => 0 end))) in
        Ok (PDict [("phase_ii_trials", p2); ("phase_iii_trials", p3); ("recent_trials", trials);
                   ("key_insights", ins); ("total_studies", n);
                   ("status", PStr ("Found " ++ py_str n ++ " studies"));
                   ("source", PStr "clinicaltrials.gov");
                   ("search_url", PStr (search_url drug_name))]))))) in
      match out with
      | Ok v => (v, c2)
      | Err e => (trials_error drug_name e, c2)
      end
  end.

End ClinicalTrials.

(** The state of [_process_api_response]'s loop that it keeps: one
    insight per trial, and phase counts bounded by the trials. *)
Definition acc_ok (acc : trial_acc) : Prop :=
  List.length (insights_rev acc) = List.length (trials_rev acc) /\
  0 <= n_ii acc <= Z.of_nat (List.length (trials_rev acc)) /\
  0 <= n_iii acc <= Z.of_nat (List.length (trials_rev acc)).

(** What a successful [_search_clinicaltrials] returns. *)
Definition trials_found (r : list (string * pyval)) : Prop :=
  exists n2 n3 trials ins tc,
    r = [("phase_ii", PInt n2); ("phase_iii", PInt n3); ("trials", PList trials);
         ("insights", PList ins); ("source", PStr "clinicaltrials.gov"); ("total_count", tc)] /\
    (1 <= List.length trials <= 10)%nat /\
    0 <= n2 <= Z.of_nat (List.length trials) /\ 0 <= n3 <= Z.of_nat (List.length trials) /\
    List.length ins = Nat.min 5 (List.length trials).

(* ================================================================== *)
(** * Properties *)
(* ================================================================== *)

(** ** Request wrappers *)

Lemma requests_of_app (a b : list client_event) :
  requests_of (a ++ b) = (requests_of a + requests_of b)%nat.
Proof. induction a as [|[] a IH]; simpl; auto. Qed.

Lemma backoffs_of_app (a b : list client_event) :
  backoffs_of (a ++ b) = (backoffs_of a ++ backoffs_of b)%list.
Proof. induction a as [|[] a IH]; simpl; try rewrite IH; auto. Qed.

Lemma rate_limit_events now o l :
  let '(_, evs, _) := rate_limit now o l in requests_of evs = 0%nat /\ backoffs_of evs = [].
Proof. unfold rate_limit. destruct (_ <? _); simpl; auto. Qed.

(** The loop of [_get_with_retry], started at [attempt] with
    [attempt + fuel = max_retries]: what it appends to the trace. *)
Lemma get_with_retry_loop_trace w n : forall fuel attempt c,
  (attempt + fuel = n)%nat ->
  exists evs, trace (snd (get_with_retry_loop w n attempt fuel c)) = (trace c ++ evs)%list /\
    (requests_of evs <= fuel)%nat /\
    ((1 <= fuel)%nat -> (1 <= requests_of evs)%nat) /\
    backoffs_of evs = map (backoff_wait w) (seq attempt (requests_of evs - 1)).
Proof.
  induction fuel as [|f IH]; intros attempt c Hn; simpl.
  - exists []. rewrite app_nil_r. simpl. repeat split; auto; lia.
  - pose proof (rate_limit_events (clock c) 0%N (lim c)) as Hev.
    destruct (rate_limit (clock c) 0%N (lim c)) as [[now thr] l]. destruct Hev as [Hr Hb].
    destruct (request_outcome (upstream w attempt)) as [v|e].
    + exists (thr ++ [EvRequest now])%list. simpl. rewrite app_assoc.
      rewrite requests_of_app, backoffs_of_app, Hr, Hb. simpl. repeat split; auto; lia.
    + destruct (Nat.eqb_spec attempt (n - 1)) as [Hl|Hl].
      * exists (thr ++ [EvRequest now])%list. simpl. rewrite app_assoc.
        rewrite requests_of_app, backoffs_of_app, Hr, Hb. simpl. repeat split; auto; lia.
      * assert (Hf : (1 <= f)%nat) by lia.
        destruct (IH (S attempt)
                   (mk_client (now + backoff_wait w attempt) l
                      ((trace c ++ thr ++ [EvRequest now]) ++ [EvBackoff (backoff_wait w attempt)])%list)
                   ltac:(lia)) as [evs [Ht [Hle [H1 Hbo]]]].
        unfold backoff_wait in *.
        exists (thr ++ [EvRequest now] ++ [EvBackoff (2 ^ Z.of_nat attempt * second + jitter w attempt)] ++ evs)%list.
        simpl in Ht |- *. rewrite Ht. repeat rewrite <- app_assoc. split; [reflexivity|].
        rewrite !requests_of_app, !backoffs_of_app, Hr, Hb. simpl.
        specialize (H1 Hf).
        split; [lia|]. split; [lia|].
        rewrite Hbo. destruct (requests_of evs) as [|r]; [lia|].
        simpl. rewrite !Nat.sub_0_r. reflexivity.
Qed.

Lemma rate_limit_requests now o l :
  let '(_, evs, _) := rate_limit now o l in requests_of evs = 0%nat.
Proof. pose proof (rate_limit_events now o l). destruct (rate_limit now o l) as [[]]. tauto. Qed.

(** When every attempt fails, the loop issues one request per attempt and
    returns [None]. *)
Lemma get_with_retry_loop_all_fail w n : forall fuel attempt c,
  (attempt + fuel = n)%nat ->
  (forall i, (attempt <= i < attempt + fuel)%nat -> request_fails (upstream w i) = true) ->
  fst (get_with_retry_loop w n attempt fuel c) = None /\
  requests_of (trace (snd (get_with_retry_loop w n attempt fuel c))) =
    (requests_of (trace c) + fuel)%nat.
Proof.
  induction fuel as [|f IH]; intros attempt c Hn Hf; simpl.
  - split; auto; lia.
  - pose proof (rate_limit_requests (clock c) 0%N (lim c)) as Hr.
    destruct (rate_limit (clock c) 0%N (lim c)) as [[now thr] l].
    assert (Ha : request_fails (upstream w attempt) = true) by (apply Hf; lia).
    unfold request_fails in Ha.
    destruct (request_outcome (upstream w attempt)) as [v|e]; [discriminate|].
    destruct (Nat.eqb_spec attempt (n - 1)) as [Hl|Hl].
    + simpl. rewrite !requests_of_app, Hr. simpl. split; auto. lia.
    + match goal with |- context [get_with_retry_loop w n (S attempt) f ?c2] =>
        destruct (IH (S attempt) c2 ltac:(lia)) as [H1 H2] end.
      { intros i Hi. apply Hf. lia. }
      split; [exact H1|]. rewrite H2. simpl. rewrite !requests_of_app, Hr. simpl. lia.
Qed.

Lemma trade_request_loop_all_fail w r : forall fuel attempt,
  (attempt + fuel = r)%nat ->
  (forall i, (attempt <= i < attempt + fuel)%nat -> request_fails (upstream w i) = true) ->
  trade_request_loop w r attempt fuel = (None, fuel).
Proof.
  induction fuel as [|f IH]; intros attempt Hn Hf; simpl; auto.
  assert (Ha : request_fails (upstream w attempt) = true) by (apply Hf; lia).
  unfold request_fails in Ha.
  destruct (request_outcome (upstream w attempt)) as [v|e]; [discriminate|].
  destruct (Nat.ltb_spec attempt (r - 1)) as [Hl|Hl].
  - rewrite (IH (S attempt)); auto; [lia|]. intros i Hi. apply Hf. lia.
  - destruct f; auto. lia.
Qed.

Lemma client_error_fails code ra b :
  400 <= code < 500 -> request_fails (Response code ra b) = true.
Proof.
  intros H. unfold request_fails, request_outcome, http_error_status.
  replace ((400 <=? code) && (code <? 600)) with true; auto.
  symmetry. apply andb_true_intro. split; [apply Z.leb_le | apply Z.ltb_lt]; lia.
Qed.

(** C4 (amended). [ClinicalTrialsAgent._get_with_retry] issues at most
    [max_retries] requests in total, hence never more than
    [max_retries + 1]; after failed attempt [k] (counting from 0) it waits
    [2 ** k] seconds plus the jitter before the next one; when every attempt
    fails it returns [None] after exactly [max_retries] requests (3 with the
    default, that is 1 initial request and 2 retries). *)
Theorem get_with_retry_schedule (w : world) (n : nat) (t : Z) (l : limiter) :
  let c' := snd (get_with_retry w n (mk_client t l [])) in
  (requests_of (trace c') <= n)%nat /\
  backoffs_of (trace c') = map (backoff_wait w) (seq 0 (requests_of (trace c') - 1)) /\
  ((forall i, (i < n)%nat -> request_fails (upstream w i) = true) ->
     fst (get_with_retry w n (mk_client t l [])) = None /\ requests_of (trace c') = n).
Proof.
  unfold get_with_retry. simpl.
  destruct (get_with_retry_loop_trace w n n 0 (mk_client t l []) eq_refl)
    as [evs [Ht [Hle [_ Hb]]]].
  simpl in Ht. rewrite Ht. simpl. split; [exact Hle|]. split; [exact Hb|].
  intros Hf.
  destruct (get_with_retry_loop_all_fail w n n 0 (mk_client t l []) eq_refl) as [Hn Hr].
  { intros i Hi. apply Hf. lia. }
  split; [exact Hn|]. rewrite Ht in Hr. exact Hr.
Qed.

Lemma get_with_retry_schedule_witness :
  (forall i, (i < 3)%nat -> request_fails (upstream timeout_world i) = true) /\
  fst (get_with_retry timeout_world 3 c0) = None /\
  requests_of (trace (snd (get_with_retry timeout_world 3 c0))) = 3%nat.
Proof.
  assert (H : forall i, (i < 3)%nat -> request_fails (upstream timeout_world i) = true)
    by (intros; reflexivity).
  split; [exact H|]. exact (proj2 (proj2 (get_with_retry_schedule timeout_world 3 _ _)) H).
Defined.

(** C4 (counterexample). With [max_retries = 3] and a timeout on every
    try, [_get_with_retry] gives up after 3 requests, not 4. *)
Lemma get_with_retry_three_attempts :
  requests_of (trace (snd (get_with_retry timeout_world 3 c0))) = 3%nat /\
  requests_of (trace (snd (get_with_retry timeout_world 3 c0))) <> 4%nat.
Proof. vm_compute. split; [reflexivity | discriminate]. Qed.

(** C5 (amended). A 4xx response, 429 or not, is retried like any other
    request error: when the first [n] responses are 4xx,
    [ClinicalTrialsAgent._get_with_retry] issues [n] requests with [n - 1]
    backoff sleeps between them and returns [None], and
    [TradeAgent._make_api_request] issues [n] requests (without sleeping)
    and returns [None]. *)
Theorem client_errors_are_retried (w : world) (n : nat) (t : Z) (l : limiter) :
  (forall i, (i < n)%nat ->
     exists code ra b, upstream w i = Response code ra b /\ 400 <= code < 500) ->
  fst (get_with_retry w n (mk_client t l [])) = None /\
  requests_of (trace (snd (get_with_retry w n (mk_client t l [])))) = n /\
  List.length (backoffs_of (trace (snd (get_with_retry w n (mk_client t l []))))) = (n - 1)%nat /\
  trade_make_api_request w n = (None, n).
Proof.
  intros H4.
  assert (Hf : forall i, (i < n)%nat -> request_fails (upstream w i) = true).
  { intros i Hi. destruct (H4 i Hi) as [code [ra [b [-> Hc]]]]. apply client_error_fails; lia. }
  destruct (get_with_retry_schedule w n t l) as [_ [Hb Hall]].
  destruct (Hall Hf) as [Hn Hr].
  split; [exact Hn|]. split; [exact Hr|]. split.
  - rewrite Hb, length_map, length_seq, Hr. reflexivity.
  - unfold trade_make_api_request. apply trade_request_loop_all_fail; auto.
    intros i Hi. apply Hf. lia.
Qed.

Lemma client_errors_are_retried_witness :
  fst (get_with_retry not_found_world 3 c0) = None /\
  requests_of (trace (snd (get_with_retry not_found_world 3 c0))) = 3%nat /\
  List.length (backoffs_of (trace (snd (get_with_retry not_found_world 3 c0)))) = 2%nat /\
  trade_make_api_request not_found_world 3 = (None, 3%nat).
Proof.
  apply (client_errors_are_retried not_found_world 3 _ _).
  intros i Hi. exists 404, None, (JsonOk (PDict [])). split; [reflexivity | lia].
Defined.

(** C5 (counterexample). On a 404, the clinical trials wrapper issues 3
    requests and sleeps twice, and the trade wrapper issues 3 requests. *)
Lemma not_found_is_retried :
  requests_of (trace (snd (get_with_retry not_found_world 3 c0))) = 3%nat /\
  backoffs_of (trace (snd (get_with_retry not_found_world 3 c0))) = [1500000; 2500000] /\
  trade_make_api_request not_found_world 3 = (None, 3%nat).
Proof. vm_compute. repeat split. Qed.

(** C6 (code_bug). [FDAAgent._make_api_request] raises past its boundary:
    [agents/fda_agent.py] never imports [time], so the [time.sleep] of the
    429 branch and of the [except RequestException] branch raise
    [NameError]; the clinical trials module, which imports [time], sleeps
    on the same path. *)
Theorem fda_request_raises_name_error :
  fst (fda_make_api_request retry_after_world 3 c0) = Err name_error /\
  fst (fda_make_api_request timeout_world 3 c0) = Err name_error /\
  existsb (String.eqb "time") fda_agent_globals = false /\
  existsb (String.eqb "time") clinical_trials_agent_globals = true.
Proof. vm_compute. repeat split. Qed.

(** C7 (code_bug). On a 429 with [Retry-After: 3], [FDAAgent._make_api_request]
    neither sleeps nor issues a next attempt: [time.sleep(3)] raises
    [NameError] after the single request. *)
Theorem fda_retry_after_not_honoured :
  fda_make_api_request retry_after_world 3 c0 =
    (Err name_error, mk_client (clock c0) (lim c0) [EvRequest (clock c0)]).
Proof. vm_compute. reflexivity. Qed.

(** ** Rate limiting *)

Lemma rate_limit_stamp now o l :
  let '(now', _, l') := rate_limit now o l in
  last_request_time l' = now' /\ min_request_interval l' = min_request_interval l /\
  last_request_time l + min_request_interval l <= now'.
Proof.
  unfold rate_limit. destruct (Z.ltb_spec (now - last_request_time l) (min_request_interval l));
  simpl; repeat split; lia.
Qed.

Lemma rate_limit_run_spaced steps : forall now l,
  spaced (min_request_interval l) (rate_limit_run now l steps) /\
  (forall x rest, rate_limit_run now l steps = x :: rest ->
                  last_request_time l + min_request_interval l <= x).
Proof.
  induction steps as [|[gap o] steps IH]; intros now l; simpl.
  - split; [exact I | discriminate].
  - pose proof (rate_limit_stamp (now + gap) o l) as Hs.
    destruct (rate_limit (now + gap) o l) as [[now' evs] l'].
    destruct Hs as [Hlast [Hmin Hle]].
    destruct (IH now' l') as [Hsp Hhd]. rewrite Hmin in Hsp, Hhd.
    split.
    + destruct (rate_limit_run now' l' steps) as [|y ys] eqn:E; [exact I|].
      split; [|exact Hsp]. specialize (Hhd y ys eq_refl). lia.
    + intros x rest H. injection H as <- _. lia.
Qed.

(** C8. Any two consecutive [_rate_limit] stamps of a
    [ClinicalTrialsAgent] instance ([min_request_interval = 1.0]) are at
    least one second apart, whatever time passes between the calls; each
    request of [_get_with_retry] is issued right after its stamp. *)
Theorem clinical_requests_spaced (now last : Z) (steps : list (Z * N)) :
  spaced second (rate_limit_run now (mk_limiter last second) steps).
Proof. exact (proj1 (rate_limit_run_spaced steps now (mk_limiter last second))). Qed.

(** ** TTL caches *)

Lemma cache_lookup_store_eq k e c : cache_lookup k (cache_store k e c) = Some e.
Proof.
  induction c as [|[k' e'] c IH]; simpl.
  - rewrite String.eqb_refl. reflexivity.
  - destruct (String.eqb_spec k k') as [->|Hne]; simpl.
    + rewrite String.eqb_refl. reflexivity.
    + apply String.eqb_neq in Hne. rewrite Hne. exact IH.
Qed.

Lemma cache_lookup_store_some k k2 e c :
  cache_lookup k c <> None -> cache_lookup k (cache_store k2 e c) <> None.
Proof.
  induction c as [|[k' e'] c IH]; simpl; [tauto|].
  destruct (String.eqb_spec k2 k') as [->|Hne]; simpl;
  destruct (String.eqb k k'); auto; discriminate.
Qed.

Lemma cache_run_keeps ttl ops : forall c k,
  cache_lookup k c <> None -> cache_lookup k (fst (cache_run ttl c ops)) <> None.
Proof.
  induction ops as [|[k' now|k' d now] ops IH]; intros c k H; simpl; auto.
  - destruct (cache_run ttl c ops) as [c' rs] eqn:E. simpl.
    specialize (IH c k H). rewrite E in IH. exact IH.
  - apply IH. unfold set_cached. apply cache_lookup_store_some. exact H.
Qed.

(** C9 (amended). Expiry of the TTL caches is evaluated lazily on read
    with a strict comparison: a read at [now] of a value stored at [t]
    returns it exactly when [now - t < ttl] and returns nothing exactly
    when [now - t >= ttl]; no sequence of reads and writes removes a key. *)
Theorem ttl_cache_lazy_expiry (ttl : Z) (c : ttl_cache) (k : string) (d : pyval) (t now : Z) :
  (get_cached ttl (set_cached c k d t) k now = Some d <-> now - t < ttl) /\
  (get_cached ttl (set_cached c k d t) k now = None <-> ttl <= now - t) /\
  (forall ops, cache_lookup k (fst (cache_run ttl (set_cached c k d t) ops)) <> None).
Proof.
  unfold get_cached, set_cached. rewrite cache_lookup_store_eq.
  destruct (Z.ltb_spec (now - t) ttl) as [H|H].
  - split; [split; auto|]. split; [split; [discriminate | lia]|].
    intros ops. apply cache_run_keeps. rewrite cache_lookup_store_eq. discriminate.
  - split; [split; [discriminate | lia]|]. split; [split; auto|].
    intros ops. apply cache_run_keeps. rewrite cache_lookup_store_eq. discriminate.
Qed.

(** C9 (counterexample). A web intelligence entry read exactly six hours
    after it was stored ([now - stored_at = ttl]) is treated as absent. *)
Lemma ttl_cache_expires_at_ttl :
  get_cached web_intel_cache_ttl (set_cached [] "metformin" (PStr "data") 0) "metformin"
    web_intel_cache_ttl = None.
Proof. reflexivity. Qed.

(** ** The orchestrator *)



Lemma dict_get_set_eq k v l : dict_get k (dict_set k v l) = Some v.
Proof.
  induction l as [|[k' v'] l IH]; simpl.
  - rewrite String.eqb_refl. reflexivity.
  - destruct (String.eqb k k') eqn:E; simpl.
    + rewrite String.eqb_refl. reflexivity.
    + rewrite E. exact IH.
Qed.







Lemma py_or_not_frame v d : (forall rows, v <> PFrame rows) -> exists w, py_or v d = Ok w.
Proof.
  intros H. destruct v; unfold py_or; simpl; eauto;
  try (match goal with |- context [if ?b then _ else _] => destruct b end; eauto).
  exfalso; eapply H; reflexivity.
Qed.

Lemma source_entry r dflt : (forall rows, r <> Returned (PFrame rows)) ->
  exists v w, process_result r PNone = Ok v /\ py_or v dflt = Ok w /\
              (forall e, r = Raised e -> w = dflt).
Proof.
  intros H. destruct r as [v|e].
  - assert (Hv : exists v', process_result (Returned v) PNone = Ok v' /\ forall rows, v' <> PFrame rows).
    { destruct v; simpl; eexists; split; try reflexivity; try discriminate.
      exfalso; eapply H; reflexivity. }
    destruct Hv as (v' & E & Hnf). destruct (py_or_not_frame v' dflt Hnf) as [w Hw].
    exists v', w. split; [exact E|]. split; [exact Hw|]. discriminate.
  - exists (PDict []), dflt. split; [reflexivity|]. split; [reflexivity|]. auto.
Qed.

Lemma trade_entry r :
  exists v, process_result r (PDict []) = Ok v /\ (forall e, r = Raised e -> v = PDict []).
Proof.
  destruct r as [v|e]; [|eexists; split; [reflexivity|auto]].
  destruct v; eexists; split; try reflexivity; discriminate.
Qed.

Lemma fda_entry r : (forall e, r <> Raised e) -> exists v, process_result r (PFrame []) = Ok v.
Proof.
  destruct r as [v|e]; intros H; [|exfalso; eapply H; reflexivity].
  destruct v; eexists; reflexivity.
Qed.

Lemma area_entry a : exists w, py_or (PStr a) (PStr "General") = Ok w.
Proof. apply py_or_not_frame. discriminate. Qed.

(** C1 (code_bug). When the FDA task raises, [analyze_drug] does not turn
    it into a default entry: [process_result(results[0], pd.DataFrame())]
    evaluates [pd.DataFrame() or {}], whose truth test raises
    [ValueError], so the [except] handler returns the error dict, which
    has no entry for any source, and nothing is cached although the six
    tasks were dispatched. *)
Theorem fda_failure_discards_record md5 d a now res s e :
  validate_drug_name d = true ->
  dict_get (get_analysis_cache_key md5 d a) (session_state s) = None ->
  res FDA = Raised e ->
  analyze_drug md5 healthy_sink d a now res s =
    (Ok (PDict [("status", PStr "error");
                ("message", PStr ("Analysis error: " ++ exc_msg frame_truth_error))]),
     mk_ostate (session_state s) (dispatched s + 6)).
Proof.
  intros Hv Hmiss Hf. unfold analyze_drug, analyze_try. rewrite Hv.
  cbn -[dict_get get_analysis_cache_key process_result]. rewrite Hmiss, Hf. reflexivity.
Qed.

Lemma fda_failure_discards_record_witness :
  validate_drug_name "metformin" = true /\
  analyze_drug md5_id healthy_sink "metformin" "diabetes" "t" fda_raises (mk_ostate [] 0) =
    (Ok (PDict [("status", PStr "error");
                ("message", PStr ("Analysis error: " ++ exc_msg frame_truth_error))]),
     mk_ostate [] 6).
Proof.
  split; [reflexivity|].
  apply (fda_failure_discards_record md5_id "metformin" "diabetes" "t" fda_raises (mk_ostate [] 0)
           (mk_exc "Timeout" "read timed out")); reflexivity.
Defined.

(** C2 (amended). The record of [analyze_drug] has no [overall_status]:
    on a cache miss with a valid name and a working progress channel, if
    the FDA task does not raise, it is [{"status": "success", "analysis":
    ...}] however many of the other tasks raised; the analysis holds an
    entry for every source, and a source whose task raised gets its
    default entry. *)
Theorem analysis_success_without_overall_status md5 d a now res s :
  validate_drug_name d = true ->
  dict_get (get_analysis_cache_key md5 d a) (session_state s) = None ->
  (forall e, res FDA <> Raised e) ->
  (forall a' rows, a' <> FDA -> a' <> Trade -> res a' <> Returned (PFrame rows)) ->
  exists analysis,
    fst (analyze_drug md5 healthy_sink d a now res s) =
      Ok (PDict [("status", PStr "success"); ("analysis", analysis)]) /\
    record_field "overall_status" analysis = None /\
    (forall a', record_field (source_key a') analysis <> None) /\
    (forall a' e, a' <> FDA -> res a' = Raised e ->
                  record_field (source_key a') analysis = Some (source_fallback a')).
Proof.
  intros Hv Hmiss Hfda Hfr.
  destruct (fda_entry _ Hfda) as [vF EF].
  destruct (trade_entry (res Trade)) as (vT & ET & RT).
  destruct (source_entry (res Patent) patent_default) as (vP & wP & EP & OP & RP);
    [intros; apply Hfr; discriminate|].
  destruct (source_entry (res Trials) trials_default) as (vC & wC & EC & OC & RC);
    [intros; apply Hfr; discriminate|].
  destruct (source_entry (res WebIntel) web_default) as (vW & wW & EW & OW & RW);
    [intros; apply Hfr; discriminate|].
  destruct (source_entry (res Internal) internal_default) as (vI & wI & EI & OI & RI);
    [intros; apply Hfr; discriminate|].
  destruct (area_entry a) as [wA EA].
  unfold analyze_drug, analyze_try. rewrite Hv. rewrite EF, ET, EP, EC, EW, EI, EA.
  cbn -[py_or dict_set dict_get get_analysis_cache_key]. rewrite Hmiss.
  cbn -[py_or dict_set dict_get get_analysis_cache_key].
  rewrite OP, OC, OW, OI. cbn -[dict_set dict_get get_analysis_cache_key].
  rewrite dict_get_set_eq. cbn.
  eexists. split; [reflexivity|]. split; [reflexivity|]. split.
  - intros []; simpl; discriminate.
  - intros [] e Hne Hr; simpl; try (exfalso; apply Hne; reflexivity); f_equal; eauto.
Qed.

Lemma analysis_success_without_overall_status_witness :
  exists analysis,
    fst (analyze_drug md5_id healthy_sink "metformin" "diabetes" "t" trials_raises (mk_ostate [] 0)) =
      Ok (PDict [("status", PStr "success"); ("analysis", analysis)]) /\
    record_field "overall_status" analysis = None /\
    (forall a', record_field (source_key a') analysis <> None) /\
    (forall a' e, a' <> FDA -> trials_raises a' = Raised e ->
                  record_field (source_key a') analysis = Some (source_fallback a')).
Proof.
  apply (analysis_success_without_overall_status md5_id "metformin" "diabetes" "t" trials_raises
           (mk_ostate [] 0)); [reflexivity | reflexivity | discriminate |].
  intros [] rows H1 H2; simpl; discriminate.
Defined.

(** C2 (counterexample). One of the six tasks (clinical trials) raises,
    yet the returned record says ["success"] and carries no
    [overall_status] that could read Degraded. *)
Lemma one_failed_source_reports_success :
  match fst (analyze_drug md5_id healthy_sink "metformin" "diabetes" "t" trials_raises (mk_ostate [] 0)) with
  | Ok (PDict [("status", PStr st); ("analysis", an)]) =>
      st = "success" /\ record_field "overall_status" an = None /\
      record_field "clinical_trials" an = Some trials_default
  | _ => False
  end.
Proof. vm_compute. repeat split. Qed.





(** ** The simulated agents *)

Lemma str_app_assoc (x y z : string) : ((x ++ y) ++ z = x ++ y ++ z)%string.
Proof. induction x as [|c x IH]; simpl; [reflexivity | now rewrite IH]. Qed.

Lemma str_app_nil_r (x : string) : (x ++ "")%string = x.
Proof. induction x as [|c x IH]; simpl; [reflexivity | now rewrite IH]. Qed.

Lemma py_lower_app (x y : string) : py_lower (x ++ y) = (py_lower x ++ py_lower y)%string.
Proof. induction x as [|c x IH]; simpl; [reflexivity | now rewrite IH]. Qed.

Lemma str_contains_app_r (x y pat : string) :
  str_contains y pat = true -> str_contains (x ++ y) pat = true.
Proof.
  induction x as [|c x IH]; simpl; [auto|]. intros H. rewrite (IH H). apply orb_true_r.
Qed.

Lemma composition_title_core d :
  str_contains (py_lower (composition_title d)) "composition" = true.
Proof. reflexivity. Qed.

Lemma composition_title_formulation d :
  str_contains (py_lower (composition_title d)) "formulation" = true.
Proof.
  unfold composition_title. rewrite !py_lower_app.
  apply str_contains_app_r, str_contains_app_r. reflexivity.
Qed.

Lemma method_title_contains d pat :
  (pat = "composition" \/ pat = "formulation") ->
  str_contains (py_lower (method_title d)) pat = str_contains (py_lower d) pat.
Proof.
  intros [-> | ->]; unfold method_title; rewrite py_lower_app; reflexivity.
Qed.

Section AnagramRelations.
Variable G : Type.
Variable next32 : G -> Z * G.

Lemma Forall2_rev {A B} (R : A -> B -> Prop) l1 l2 :
  Forall2 R l1 l2 -> Forall2 R (rev l1) (rev l2).
Proof.
  induction 1; simpl; [constructor|]. apply Forall2_app; auto.
Qed.

Lemma patent_loop_rel a b now years : forall i acc1 acc2 nxt g,
  Forall2 (entry_rel (title_rel a b)) acc1 acc2 ->
  rm_rel (fun u v => Forall2 (entry_rel (title_rel a b)) (fst u) (fst v) /\ snd u = snd v)
    (patent_loop G next32 a now i years acc1 nxt g) (patent_loop G next32 b now i years acc2 nxt g).
Proof.
  induction years as [|y ys IH]; intros i acc1 acc2 nxt g Hacc; simpl.
  - unfold ret. simpl. split; [split; [apply Forall2_rev; exact Hacc | reflexivity] | reflexivity].
  - unfold bind.
    destruct (randint next32 1 12 g) as [[m g1]|]; [|exact I].
    destruct (randint next32 1 28 g1) as [[dd g2]|]; [|exact I].
    destruct (randint next32 7 11 g2) as [[n1 g3]|]; [|exact I].
    destruct (randint next32 100 999 g3) as [[n2 g4]|]; [|exact I].
    destruct (randint next32 100 999 g4) as [[n3 g5]|]; [|exact I].
    destruct (randint next32 1 2 g5) as [[n4 g6]|]; [|exact I].
    apply IH. constructor; [|exact Hacc].
    unfold entry_rel; simpl. repeat split.
    destruct (i mod 2 =? 0); unfold title_rel; auto.
Qed.

Lemma count_Forall2 {A B} (f : A -> bool) (h : B -> bool) (R : A -> B -> Prop) l1 l2 :
  Forall2 R l1 l2 -> (forall x y, R x y -> f x = h y) -> count f l1 = count h l2.
Proof.
  intros HF Hfh. unfold count. f_equal.
  induction HF as [|x y l1 l2 Hxy _ IH]; simpl; [reflexivity|].
  rewrite (Hfh x y Hxy). destruct (h y); simpl; rewrite IH; reflexivity.
Qed.

Lemma title_rel_name_rel a b x y : title_rel a b x y -> name_rel a b x y.
Proof.
  intros [[-> ->]|[-> ->]]; right.
  - exists "Composition and method for ", " formulation". split; reflexivity.
  - exists "Method of treating disease using ", "". unfold method_title.
    rewrite !str_app_nil_r. split; reflexivity.
Qed.

Lemma patent_body_rel a b now g :
  str_contains (py_lower a) "composition" = str_contains (py_lower b) "composition" ->
  str_contains (py_lower a) "formulation" = str_contains (py_lower b) "formulation" ->
  rm_rel (patent_rel a b) (patent_body G next32 a now g) (patent_body G next32 b now g).
Proof.
  intros Hc Hf. unfold patent_body, bind.
  destruct (randint next32 2 15 g) as [[cnt g1]|]; [|exact I].
  destruct (replicateM _ _ g1) as [[years g2]|]; [|exact I].
  pose proof (patent_loop_rel a b now (sort_desc years) 0 [] [] None g2 (Forall2_nil _)) as HL.
  destruct (patent_loop G next32 a now 0 (sort_desc years) [] None g2) as [[[t1 n1] g3]|];
  destruct (patent_loop G next32 b now 0 (sort_desc years) [] None g2) as [[[t2 n2] g4]|];
  simpl in HL; try contradiction; [|exact I].
  destruct HL as [[HT <-] <-].
  assert (Hcore : count (fun p => String.eqb (status p) "Active" &&
                          str_contains (py_lower (title p)) "composition") t1 =
                  count (fun p => String.eqb (status p) "Active" &&
                          str_contains (py_lower (title p)) "composition") t2).
  { apply (count_Forall2 _ _ _ _ _ HT).
    intros x y (_ & _ & _ & Hs & Ht). rewrite Hs. f_equal.
    destruct Ht as [[-> ->]|[-> ->]]; [reflexivity|].
    rewrite !method_title_contains by auto. exact Hc. }
  assert (Hform : count (fun p => str_contains (py_lower (title p)) "formulation") t1 =
                  count (fun p => str_contains (py_lower (title p)) "formulation") t2).
  { apply (count_Forall2 _ _ _ _ _ HT).
    intros x y (_ & _ & _ & _ & Ht).
    destruct Ht as [[-> ->]|[-> ->]]; [rewrite !composition_title_formulation; reflexivity|].
    rewrite !method_title_contains by auto. exact Hf. }
  assert (Hact : count (fun p => String.eqb (status p) "Active") t1 =
                 count (fun p => String.eqb (status p) "Active") t2).
  { apply (count_Forall2 _ _ _ _ _ HT). intros x y (_ & _ & _ & Hs & _). rewrite Hs. reflexivity. }
  unfold ret; simpl. rewrite Hcore, Hform, Hact.
  split; [|reflexivity]. unfold patent_rel; simpl. repeat split.
  eapply Forall2_impl; [|exact HT].
  intros x y (H1 & H2 & H3 & H4 & H5). repeat split; auto. apply title_rel_name_rel; exact H5.
Qed.

Ltac same_draw :=
  match goal with
  | |- rm_rel _ (match ?m with _ => _ end) (match ?m with _ => _ end) =>
      destruct m as [[? ?]|]; [|exact I]
  end.

Lemma project_loop_rel a b k : forall g,
  rm_rel (Forall2 (project_rel a b)) (project_loop G next32 a k g) (project_loop G next32 b k g).
Proof.
  induction k as [|k IH]; intros g; cbn [project_loop].
  - cbn [ret rm_rel option_rel fst snd]. split; [constructor | reflexivity].
  - unfold bind. do 5 same_draw.
    match goal with |- context [project_loop G next32 a k ?g5] =>
      pose proof (IH g5) as HR;
      destruct (project_loop G next32 a k g5) as [[r1 g6]|];
      destruct (project_loop G next32 b k g5) as [[r2 g7]|];
      simpl in HR; try contradiction; [|exact I]
    end.
    destruct HR as [HR <-]. cbn [ret rm_rel option_rel fst snd]. split; [|reflexivity].
    constructor; [|exact HR].
    unfold project_rel; cbn [proj_title proj_date proj_status proj_summary]. repeat split. right.
        match goal with |- exists p q, (("Project in " ++ ?t ++ " exploring " ++ _ ++ ?q0) = _)%string /\ _ =>
      exists ("Project in " ++ t ++ " exploring ")%string, q0 end.
    rewrite !str_app_assoc. split; reflexivity.
Qed.

Lemma insert_proj_desc_rel a b p1 p2 acc1 acc2 :
  project_rel a b p1 p2 -> Forall2 (project_rel a b) acc1 acc2 ->
  Forall2 (project_rel a b) (insert_proj_desc p1 acc1) (insert_proj_desc p2 acc2).
Proof.
  intros Hp HF. induction HF as [|q1 q2 l1 l2 Hq HF IH]; simpl.
  - constructor; [exact Hp | constructor].
  - destruct Hp as (Ht & Hd & Hs & Hn). destruct Hq as (Ht' & Hd' & Hs' & Hn').
    rewrite Hd, Hd'. destruct (str_lt (proj_date q2) (proj_date p2)).
    + constructor; [unfold project_rel; auto|]. constructor; [unfold project_rel; auto|exact HF].
    + constructor; [unfold project_rel; auto|exact IH].
Qed.

Lemma sort_projects_desc_rel a b l1 l2 :
  Forall2 (project_rel a b) l1 l2 ->
  Forall2 (project_rel a b) (sort_projects_desc l1) (sort_projects_desc l2).
Proof.
  unfold sort_projects_desc. generalize (@Forall2_nil _ _ (project_rel a b)).
  generalize (@nil Project) at 1 3 as acc1. generalize (@nil Project) as acc2.
  intros acc2 acc1 Hacc HF. revert acc1 acc2 Hacc.
  induction HF as [|x y l1 l2 Hxy HF IH]; intros acc1 acc2 Hacc; simpl; [exact Hacc|].
  apply IH. apply insert_proj_desc_rel; assumption.
Qed.

Lemma profile_body_rel a b g :
  rm_rel (profile_rel a b) (profile_body G next32 a g) (profile_body G next32 b g).
Proof.
  unfold profile_body, bind. same_draw.
  match goal with |- context [project_loop G next32 a ?k ?g1] =>
    pose proof (project_loop_rel a b k g1) as HR;
    destruct (project_loop G next32 a k g1) as [[r1 g2]|];
    destruct (project_loop G next32 b k g1) as [[r2 g3]|];
    simpl in HR; try contradiction; [|exact I]
  end.
  destruct HR as [HR <-].
  same_draw.
  match goal with
  | |- rm_rel _ (match ?m with _ => _ end) (match ?m with _ => _ end) =>
      destruct m as [[[lv rt] ?]|]; [|exact I]
  end.
  do 2 same_draw. cbn [ret rm_rel option_rel fst snd]. split; [|reflexivity].
  unfold profile_rel; cbn [previous_research strategic_fit profile_insights]. split; [apply sort_projects_desc_rel; exact HR|]. split; [reflexivity|].
  constructor; [|constructor; [|constructor; [left; reflexivity | constructor]]]; right.
  - match goal with |- exists p q, (("Internal expertise in the " ++ ?e ++ " of " ++ _ ++ ?q0) = _)%string /\ _ =>
      exists ("Internal expertise in the " ++ e ++ " of ")%string, q0 end.
    rewrite !str_app_assoc. split; reflexivity.
  - match goal with |- exists p q, (("A total of " ++ ?n ++ " internal projects related to " ++ _ ++ ?q0) = _)%string /\ _ =>
      exists ("A total of " ++ n ++ " internal projects related to ")%string, q0 end.
    rewrite !str_app_assoc. split; reflexivity.
Qed.
End AnagramRelations.


(** C10 (amended). For two drug names whose lowercased characters have
    the same code point sum (the seed of both simulated agents), the
    internal profile created from an empty [_internal_db] is the same for
    both names except where the name is interpolated into project summaries
    and insights; and when the lowercased names agree on containing
    ["composition"] and on containing ["formulation"], the patent analysis
    is the same except where the name is interpolated into titles (same
    patent numbers, dates, statuses, counts, freedom to operate, next expiry
    and insights). *)
Theorem equal_code_sum_agents_related {G} (seed_fn : Z -> G) (next32 : G -> Z * G) (a b : string) (now : datetime) :
  ord_sum (py_lower a) = ord_sum (py_lower b) ->
  option_rel (profile_rel a b)
    (option_map fst (get_or_create_drug_profile seed_fn next32 [] a))
    (option_map fst (get_or_create_drug_profile seed_fn next32 [] b)) /\
  (str_contains (py_lower a) "composition" = str_contains (py_lower b) "composition" ->
   str_contains (py_lower a) "formulation" = str_contains (py_lower b) "formulation" ->
   option_rel (patent_rel a b)
     (get_patent_analysis seed_fn next32 a now) (get_patent_analysis seed_fn next32 b now)).
Proof.
  intros Hsum. split.
  - unfold get_or_create_drug_profile. cbn [db_lookup]. rewrite Hsum.
    pose proof (profile_body_rel G next32 a b (seed_fn (ord_sum (py_lower b)))) as HR.
    destruct (profile_body G next32 a _) as [[p1 g1]|];
    destruct (profile_body G next32 b _) as [[p2 g2]|];
    simpl in HR |- *; try contradiction; auto. apply HR.
  - intros Hc Hf. unfold get_patent_analysis. rewrite Hsum.
    pose proof (patent_body_rel G next32 a b now (seed_fn (ord_sum (py_lower b))) Hc Hf) as HR.
    destruct (patent_body G next32 a now _) as [[p1 g1]|];
    destruct (patent_body G next32 b now _) as [[p2 g2]|];
    simpl in HR |- *; try contradiction; auto. apply HR.
Qed.

Lemma equal_code_sum_agents_related_witness :
  ord_sum (py_lower "metformin") = ord_sum (py_lower "nimformet") /\
  option_rel (profile_rel "metformin" "nimformet")
    (option_map fst (get_or_create_drug_profile MT.seed MT.genrand_uint32 [] "metformin"))
    (option_map fst (get_or_create_drug_profile MT.seed MT.genrand_uint32 [] "nimformet")) /\
  option_rel (patent_rel "metformin" "nimformet")
    (get_patent_analysis MT.seed MT.genrand_uint32 "metformin" today)
    (get_patent_analysis MT.seed MT.genrand_uint32 "nimformet" today).
Proof.
  assert (H : ord_sum (py_lower "metformin") = ord_sum (py_lower "nimformet")) by (vm_compute; reflexivity).
  destruct (equal_code_sum_agents_related MT.seed MT.genrand_uint32 "metformin" "nimformet" today H) as [P1 P2].
  split; [exact H|]. split; [exact P1|].
  apply P2; vm_compute; reflexivity.
Defined.

(** C10 (counterexample). The anagrams "compositionk" and "knoitisopmoc"
    seed the generator alike, yet their freedom to operate differs: the
    method-of-use titles of the first contain "composition", so they count
    as active core patents. *)
Lemma anagram_fto_differs :
  ord_sum (py_lower "compositionk") = ord_sum (py_lower "knoitisopmoc") /\
  option_map freedom_to_operate (get_patent_analysis MT.seed MT.genrand_uint32 "compositionk" today) = Some "Low" /\
  option_map freedom_to_operate (get_patent_analysis MT.seed MT.genrand_uint32 "knoitisopmoc" today) = Some "Moderate".
Proof. vm_compute. repeat split. Qed.


(** ** More of the request wrappers *)

Lemma get_with_retry_loop_success w n v : forall fuel attempt c k,
  (attempt + fuel = n)%nat -> (attempt <= k < n)%nat ->
  (forall i, (attempt <= i < k)%nat -> request_fails (upstream w i) = true) ->
  request_outcome (upstream w k) = inl v ->
  fst (get_with_retry_loop w n attempt fuel c) = Some v /\
  requests_of (trace (snd (get_with_retry_loop w n attempt fuel c))) =
    (requests_of (trace c) + S (k - attempt))%nat /\
  backoffs_of (trace (snd (get_with_retry_loop w n attempt fuel c))) =
    (backoffs_of (trace c) ++ map (backoff_wait w) (seq attempt (k - attempt)))%list.
Proof.
  induction fuel as [|f IH]; intros attempt c k Hn Hk Hf Hv; [lia|]. simpl.
  pose proof (rate_limit_events (clock c) 0%N (lim c)) as Hev.
  destruct (rate_limit (clock c) 0%N (lim c)) as [[now thr] l]. destruct Hev as [Hr Hb].
  destruct (Nat.eq_dec attempt k) as [<-|Hne].
  - rewrite Hv. simpl. rewrite requests_of_app, backoffs_of_app, requests_of_app, backoffs_of_app, Hr, Hb.
    simpl. rewrite Nat.sub_diag. simpl. rewrite !app_nil_r. repeat split; auto; lia.
  - assert (Ha : request_fails (upstream w attempt) = true) by (apply Hf; lia).
    unfold request_fails in Ha.
    destruct (request_outcome (upstream w attempt)) as [v'|e]; [discriminate|].
    destruct (Nat.eqb_spec attempt (n - 1)) as [Hl|Hl]; [lia|].
    match goal with |- context [get_with_retry_loop w n (S attempt) f ?c2] =>
      destruct (IH (S attempt) c2 k ltac:(lia) ltac:(lia)) as [H1 [H2 H3]] end.
    { intros i Hi. apply Hf. lia. }
    { exact Hv. }
    split; [exact H1|]. rewrite H2, H3. simpl.
    rewrite !requests_of_app, !backoffs_of_app, Hr, Hb. simpl.
    replace (k - attempt)%nat with (S (k - S attempt)) by lia. simpl.
    split; [lia|]. rewrite app_nil_r, <- app_assoc. reflexivity.
Qed.

(** [_get_with_retry] recovers from transient failures: when the first
    [k] attempts fail and attempt [k] (counting from 0, [k < max_retries])
    succeeds, it returns that payload after [k + 1] requests, having slept
    the [k] backoffs [2 ** j] seconds plus jitter, [j < k]. *)
Theorem get_with_retry_first_success (w : world) (n k : nat) (t : Z) (l : limiter) (v : pyval) :
  (k < n)%nat ->
  (forall i, (i < k)%nat -> request_fails (upstream w i) = true) ->
  request_outcome (upstream w k) = inl v ->
  fst (get_with_retry w n (mk_client t l [])) = Some v /\
  requests_of (trace (snd (get_with_retry w n (mk_client t l [])))) = S k /\
  backoffs_of (trace (snd (get_with_retry w n (mk_client t l [])))) = map (backoff_wait w) (seq 0 k).
Proof.
  intros Hk Hf Hv. unfold get_with_retry.
  destruct (get_with_retry_loop_success w n v n 0 (mk_client t l []) k) as [H1 [H2 H3]];
    auto; try lia.
  { intros i Hi. apply Hf. lia. }
  rewrite H2, H3. simpl. rewrite Nat.sub_0_r. auto.
Qed.

Lemma get_with_retry_first_success_witness :
  fst (get_with_retry recover_world 3 c0) = Some (PInt 7) /\
  requests_of (trace (snd (get_with_retry recover_world 3 c0))) = 3%nat /\
  backoffs_of (trace (snd (get_with_retry recover_world 3 c0))) = map (backoff_wait recover_world) (seq 0 2).
Proof.
  apply (get_with_retry_first_success recover_world 3 2 _ _ (PInt 7)).
  - lia.
  - intros i Hi. destruct i as [|[|]]; [reflexivity|reflexivity|lia].
  - reflexivity.
Defined.

Lemma trade_request_loop_success w r v : forall fuel attempt k,
  (attempt + fuel = r)%nat -> (attempt <= k < r)%nat ->
  (forall i, (attempt <= i < k)%nat -> request_fails (upstream w i) = true) ->
  request_outcome (upstream w k) = inl v ->
  trade_request_loop w r attempt fuel = (Some v, S (k - attempt)).
Proof.
  induction fuel as [|f IH]; intros attempt k Hn Hk Hf Hv; [lia|]. simpl.
  destruct (Nat.eq_dec attempt k) as [<-|Hne].
  - rewrite Hv, Nat.sub_diag. reflexivity.
  - assert (Ha : request_fails (upstream w attempt) = true) by (apply Hf; lia).
    unfold request_fails in Ha.
    destruct (request_outcome (upstream w attempt)) as [v'|e]; [discriminate|].
    destruct (Nat.ltb_spec attempt (r - 1)) as [Hl|Hl]; [|lia].
    rewrite (IH (S attempt) k); auto; try lia.
    + f_equal. lia.
    + intros i Hi. apply Hf. lia.
Qed.

(** [TradeAgent._make_api_request] likewise returns the payload of the
    first successful attempt [k < retries], after [k + 1] requests. *)
Theorem trade_make_api_request_first_success (w : world) (r k : nat) (v : pyval) :
  (k < r)%nat ->
  (forall i, (i < k)%nat -> request_fails (upstream w i) = true) ->
  request_outcome (upstream w k) = inl v ->
  trade_make_api_request w r = (Some v, S k).
Proof.
  intros Hk Hf Hv. unfold trade_make_api_request.
  rewrite (trade_request_loop_success w r v r 0 k); auto; try lia.
  - rewrite Nat.sub_0_r. reflexivity.
  - intros i Hi. apply Hf. lia.
Qed.

Lemma trade_make_api_request_first_success_witness :
  trade_make_api_request recover_world 3 = (Some (PInt 7), 3%nat).
Proof.
  apply (trade_make_api_request_first_success recover_world 3 2 (PInt 7)).
  - lia.
  - intros i Hi. destruct i as [|[|]]; [reflexivity|reflexivity|lia].
  - reflexivity.
Defined.
Lemma fda_request_loop_S globals w attempt f c :
  fda_request_loop globals w attempt (S f) c =
  let c1 := mk_client (clock c) (lim c) (trace c ++ [EvRequest (clock c)])%list in
  let on_request_exception :=
    match time_sleep globals (Z.min (2 ^ Z.of_nat attempt) 10 * second) c1 with
    | Ok c2 => fda_request_loop globals w (S attempt) f c2
    | Err e => (Err e, c1)
    end in
  let other ev := match request_outcome ev with
                  | inl v => (Ok (Some v), c1)
                  | inr _ => on_request_exception
                  end in
  match upstream w attempt with
  | Response code ra b =>
      if code =? 429 then
        match match ra with Some s => py_int s | None => Ok 5 end with
        | Err e => (Err e, c1)
        | Ok retry_after =>
            match time_sleep globals (retry_after * second) c1 with
            | Ok c2 => fda_request_loop globals w (S attempt) f c2
            | Err e => (Err e, c1)
            end
        end
      else other (Response code ra b)
  | ev => other ev
  end.
Proof.
  simpl. destruct (upstream w attempt) as [code ra b| |]; auto.
  destruct (Z.eqb_spec code 429) as [->|Hne]; [reflexivity|].
  destruct code as [|p|p]; try reflexivity.
  repeat (destruct p as [p|p|]; try reflexivity).
  exfalso. apply Hne. reflexivity.
Qed.

Lemma py_int_error s e : py_int s = Err e -> exc_type e = "ValueError".
Proof.
  unfold py_int. intros H.
  match type of H with (match ?r with Some _ => _ | None => _ end) = _ => destruct r end;
  inversion H; reflexivity.
Qed.

Lemma fda_time_sleep d c : time_sleep fda_agent_globals d c = Err name_error.
Proof. reflexivity. Qed.

(** [FDAAgent._make_api_request] with [max_retries >= 1] issues exactly
    one request and never sleeps: it returns the payload of the first
    response when that succeeds, and otherwise raises [NameError] (or
    [ValueError] when a 429 carries an unparseable [Retry-After]). *)
Theorem fda_make_api_request_single_request (w : world) (n : nat) (c : client) :
  (1 <= n)%nat ->
  snd (fda_make_api_request w n c) =
    mk_client (clock c) (lim c) (trace c ++ [EvRequest (clock c)])%list /\
  (forall v, request_outcome (upstream w 0) = inl v -> fst (fda_make_api_request w n c) = Ok (Some v)) /\
  (forall e, request_outcome (upstream w 0) = inr e ->
     exists e', fst (fda_make_api_request w n c) = Err e' /\
       (exc_type e' = "NameError" \/ exc_type e' = "ValueError")).
Proof.
  intros Hn. destruct n as [|n]; [lia|]. unfold fda_make_api_request.
  rewrite fda_request_loop_S. cbv zeta. rewrite !fda_time_sleep.
  destruct (upstream w 0) as [code ra b| |] eqn:Eu.
  - destruct (Z.eqb_spec code 429) as [->|Hne].
    + destruct (match ra with Some s => py_int s | None => Ok 5 end) as [r|e] eqn:Eh.
      * repeat split; [discriminate|]. intros. exists name_error. auto.
      * repeat split; [discriminate|]. intros. exists e. split; auto. right.
        destruct ra as [s|]; [|discriminate]. exact (py_int_error s e Eh).
    + destruct (request_outcome (Response code ra b)) as [v|e]; repeat split.
      * intros v' H. inversion H. reflexivity.
      * intros e H. discriminate.
      * intros v H. discriminate.
      * intros. exists name_error. auto.
  - repeat split; [discriminate|]. intros. exists name_error. auto.
  - repeat split; [discriminate|]. intros. exists name_error. auto.
Qed.

Lemma fda_make_api_request_single_request_witness :
  snd (fda_make_api_request recover_world 3 c0) =
    mk_client (clock c0) (lim c0) (trace c0 ++ [EvRequest (clock c0)])%list /\
  exists e', fst (fda_make_api_request recover_world 3 c0) = Err e' /\
    (exc_type e' = "NameError" \/ exc_type e' = "ValueError").
Proof.
  destruct (fda_make_api_request_single_request recover_world 3 c0 ltac:(lia)) as [H1 [_ H3]].
  split; [exact H1|]. exact (H3 (mk_exc "Timeout" "Read timed out.") eq_refl).
Defined.
Lemma backoff_sum_bounds w :
  (forall i, 0 <= jitter w i < second) ->
  forall m s,
  2 ^ Z.of_nat s * (2 ^ Z.of_nat m - 1) * second <= fold_right Z.add 0 (map (backoff_wait w) (seq s m)) /\
  fold_right Z.add 0 (map (backoff_wait w) (seq s m)) <= 2 ^ Z.of_nat s * (2 ^ Z.of_nat m - 1) * second + Z.of_nat m * second.
Proof.
  intros Hj. induction m as [|m IH]; intros s; cbn [seq map fold_right].
  - simpl Z.of_nat. rewrite Z.pow_0_r. lia.
  - destruct (IH (S s)) as [H1 H2]. unfold backoff_wait. specialize (Hj s).
    rewrite Nat2Z.inj_succ, Z.pow_succ_r in * by lia.
    set (A := 2 ^ Z.of_nat s) in *. set (B := 2 ^ Z.of_nat m) in *.
    set (R := fold_right Z.add 0 (map _ (seq (S s) m))) in *.
    assert (E : A * (2 * B - 1) * second = A * second + A * 2 * (B - 1) * second) by ring.
    rewrite E.
    assert (E2 : Z.succ (Z.of_nat m) * second = Z.of_nat m * second + second) by ring.
    rewrite E2. lia.
Qed.

(** When every attempt fails, the backoff sleeps of [_get_with_retry]
    add up to between [2 ** (n - 1) - 1] and [2 ** (n - 1) - 1 + (n - 1)]
    seconds for [max_retries = n] and jitters in [[0, 1)]: 3 to 5 seconds
    with the default [n = 3]. *)
Theorem get_with_retry_total_backoff (w : world) (n : nat) (t : Z) (l : limiter) :
  (forall i, 0 <= jitter w i < second) ->
  (forall i, (i < n)%nat -> request_fails (upstream w i) = true) ->
  let waited := fold_right Z.add 0 (backoffs_of (trace (snd (get_with_retry w n (mk_client t l []))))) in
  (2 ^ Z.of_nat (n - 1) - 1) * second <= waited <=
    (2 ^ Z.of_nat (n - 1) - 1) * second + Z.of_nat (n - 1) * second.
Proof.
  intros Hj Hf. cbv zeta. unfold get_with_retry.
  destruct (get_with_retry_loop_trace w n n 0 (mk_client t l []) eq_refl)
    as [evs [Ht [_ [_ Hb]]]].
  destruct (get_with_retry_loop_all_fail w n n 0 (mk_client t l []) eq_refl) as [_ Hr].
  { intros i Hi. apply Hf. lia. }
  rewrite Ht in Hr |- *. cbn [trace] in Hr |- *. simpl app in Hr |- *.
  simpl requests_of in Hr. rewrite Hr in Hb. rewrite Hb.
  destruct (backoff_sum_bounds w Hj (n - 1) 0) as [H1 H2].
  simpl Z.of_nat in H1, H2. rewrite Z.pow_0_r, Z.mul_1_l in H1, H2. rewrite Nat.add_0_l. lia.
Qed.

Lemma get_with_retry_total_backoff_witness :
  (forall i, 0 <= jitter timeout_world i < second) /\
  3000000 <= fold_right Z.add 0 (backoffs_of (trace (snd (get_with_retry timeout_world 3 c0)))) <= 5000000.
Proof.
  assert (Hj : forall i, 0 <= jitter timeout_world i < second).
  { intros i. unfold timeout_world, second. simpl. lia. }
  split; [exact Hj|].
  exact (get_with_retry_total_backoff timeout_world 3 _ _ Hj (fun i _ => eq_refl)).
Defined.

(** ** Shapes of the simulated agents' output *)

Lemma genrand_uint32_nonneg s : 0 <= fst (MT.genrand_uint32 s).
Proof.
  unfold MT.genrand_uint32. destruct (if (MT.N_ <=? MT.mti s)%nat then _ else _) as [m i]. simpl.
  unfold MT.temper. apply Z.land_nonneg. right. unfold MT.mask32. lia.
Qed.

Lemma bind_some {G A B} (m : RM G A) (f : A -> RM G B) g r :
  bind m f g = Some r -> exists x g1, m g = Some (x, g1) /\ f x g1 = Some r.
Proof. unfold bind. destruct (m g) as [[x g1]|]; [eauto|discriminate]. Qed.

Lemma count_cons {A} (f : A -> bool) x l : count f (x :: l) = (if f x then 1 else 0) + count f l.
Proof. unfold count. cbn [filter]. destruct (f x); cbn [List.length]; rewrite ?Nat2Z.inj_succ; lia. Qed.

Lemma count_app {A} (f : A -> bool) l1 l2 : count f (l1 ++ l2) = count f l1 + count f l2.
Proof. unfold count. rewrite filter_app, length_app. lia. Qed.

Lemma count_rev {A} (f : A -> bool) l : count f (rev l) = count f l.
Proof. induction l as [|x l IH]; cbn [rev]; auto. rewrite count_app, IH, !count_cons. replace (count f []) with 0 by reflexivity. destruct (f x); lia. Qed.

Lemma count_bounds {A} (f : A -> bool) l : 0 <= count f l <= Z.of_nat (List.length l).
Proof. unfold count. pose proof (filter_length_le f l). lia. Qed.

Lemma count_mono {A} (f g : A -> bool) l :
  (forall x, f x = true -> g x = true) -> count f l <= count g l.
Proof.
  intros Hfg. induction l as [|x l IH]; [reflexivity|]. rewrite !count_cons.
  destruct (f x) eqn:E; [rewrite (Hfg x E)|destruct (g x)]; lia.
Qed.

Lemma insert_desc_length x l : List.length (insert_desc x l) = S (List.length l).
Proof. induction l as [|y l IH]; simpl; auto. destruct (y >=? x); simpl; auto. Qed.

Lemma sort_desc_length l : List.length (sort_desc l) = List.length l.
Proof.
  unfold sort_desc. rewrite <- (length_rev l). induction (rev l) as [|x t IH]; simpl; auto.
  rewrite insert_desc_length, IH. reflexivity.
Qed.

Section RandomRanges.
Variable G : Type.
Variable next32 : G -> Z * G.
Hypothesis next32_nonneg : forall g, 0 <= fst (next32 g).

Lemma randbelow_loop_range fuel n k : forall g r g',
  randbelow_loop next32 fuel n k g = Some (r, g') -> 0 <= r < n.
Proof.
  induction fuel as [|f IH]; intros g r g' H; cbn [randbelow_loop] in H; [discriminate|].
  apply bind_some in H as [x [g1 [Hx Hk]]].
  unfold getrandbits in Hx. specialize (next32_nonneg g).
  destruct (next32 g) as [w g2] eqn:E. injection Hx as <- <-. simpl in next32_nonneg.
  match type of Hk with context [if ?c then _ else _] => destruct c eqn:Hn end.
  - exact (IH _ _ _ Hk).
  - unfold ret in Hk. injection Hk as <- <-. split; [apply Z.shiftr_nonneg; exact next32_nonneg|].
    rewrite Z.geb_leb in Hn. apply Z.leb_gt in Hn. lia.
Qed.

Lemma randint_range a b g x g' : randint next32 a b g = Some (x, g') -> a <= x <= b.
Proof.
  unfold randint. intros H. apply bind_some in H as [r [g1 [Hr Hk]]].
  unfold randbelow in Hr. apply randbelow_loop_range in Hr.
  unfold ret in Hk. injection Hk as <- <-. lia.
Qed.


Lemma replicateM_length {A} (m : RM G A) : forall n g xs g',
  replicateM n m g = Some (xs, g') -> List.length xs = n.
Proof.
  induction n as [|n IH]; intros g xs g' H; cbn [replicateM] in H.
  - unfold ret in H. injection H as <- _. reflexivity.
  - apply bind_some in H as [x [g1 [_ H]]]. apply bind_some in H as [ys [g2 [Hy H]]].
    unfold ret in H. injection H as <- _. simpl. f_equal. exact (IH _ _ _ Hy).
Qed.

Lemma patent_loop_inv d now : forall years i acc nxt g res g',
  patent_loop G next32 d now i years acc nxt g = Some (res, g') ->
  (nxt = None <-> count (fun p => String.eqb (status p) "Active") acc = 0) ->
  (snd res = None <-> count (fun p => String.eqb (status p) "Active") (fst res) = 0) /\
  List.length (fst res) = (List.length acc + List.length years)%nat.
Proof.
  induction years as [|y ys IH]; intros i acc nxt g res g' H Hinv; cbn [patent_loop] in H.
  - unfold ret in H. injection H as <- _. simpl. rewrite count_rev, length_rev. split; [exact Hinv | lia].
  - do 6 (apply bind_some in H as [? [? [_ H]]]; cbv beta in H).
    cbv zeta in H.
    match type of H with context [dt_lt ?e now] => destruct (dt_lt e now) eqn:Hlt end;
      cbv iota in H.
    + change (String.eqb "Expired" "Active") with false in H.
      destruct (IH _ _ _ _ _ _ H) as [H1 H2].
      * rewrite count_cons. change (String.eqb (status (mk_patent_entry _ _ _ "Expired" _)) "Active") with false.
        rewrite Z.add_0_l. exact Hinv.
      * split; [exact H1|]. rewrite H2. simpl. lia.
    + change (String.eqb "Active" "Active") with true in H.
      destruct (IH _ _ _ _ _ _ H) as [H1 H2].
      * rewrite count_cons. change (String.eqb (status (mk_patent_entry _ _ _ "Active" _)) "Active") with true.
        unfold count at 1. split; [intros Hc; destruct nxt as [e|]; [destruct (dt_lt _ e)|]; discriminate|lia].
      * split; [exact H1|]. rewrite H2. simpl. lia.
Qed.

Lemma patent_body_shape d now g p g' :
  patent_body G next32 d now g = Some (p, g') ->
  (2 <= List.length (patent_timeline p) <= 15)%nat /\
  0 <= active_patents p <= Z.of_nat (List.length (patent_timeline p)) /\
  (next_expiry p = None <-> active_patents p = 0) /\
  (active_patents p = 0 -> freedom_to_operate p = "High") /\
  List.length (key_insights p) = if active_patents p =? 0 then 2%nat else 3%nat.
Proof.
  unfold patent_body. intros H.
  apply bind_some in H as [c [g1 [Hc H]]]. apply randint_range in Hc.
  apply bind_some in H as [years [g2 [Hy H]]]. apply replicateM_length in Hy.
  apply bind_some in H as [[timeline nxt] [g3 [Hl H]]].
  apply patent_loop_inv in Hl as [Hinv Hlen]; [|simpl; split; reflexivity].
  cbn [fst snd] in Hinv, Hlen. rewrite sort_desc_length, Hy in Hlen. simpl in Hlen.
  unfold ret in H. injection H as <- _. cbn [patent_timeline active_patents next_expiry freedom_to_operate key_insights].
  pose proof (count_bounds (fun p => String.eqb (status p) "Active") timeline) as Hb.
  split; [lia|]. split; [lia|]. split.
  - destruct nxt; simpl; split; intros E.
    + discriminate.
    + apply (proj2 Hinv) in E. discriminate.
    + apply (proj1 Hinv). reflexivity.
    + reflexivity.
  - split.
    + intros H0. unfold fto_of.
      replace (count _ timeline =? 0) with true; [reflexivity|].
      symmetry. apply Z.eqb_eq.
      pose proof (count_mono (fun p => String.eqb (status p) "Active" && str_contains (py_lower (title p)) "composition")
                  (fun p => String.eqb (status p) "Active") timeline) as Hm.
      pose proof (count_bounds (fun p => String.eqb (status p) "Active" && str_contains (py_lower (title p)) "composition") timeline).
      assert (count (fun p => String.eqb (status p) "Active" && str_contains (py_lower (title p)) "composition") timeline
              <= count (fun p => String.eqb (status p) "Active") timeline).
      { apply Hm. intros x Hx. apply andb_prop in Hx. tauto. }
      lia.
    + rewrite length_app. destruct nxt as [e|]; simpl.
      * destruct (count _ timeline =? 0) eqn:E; [|reflexivity].
        apply Z.eqb_eq in E. apply Hinv in E. discriminate.
      * destruct Hinv as [Hn _]. rewrite (Hn eq_refl). reflexivity.
Qed.

End RandomRanges.
Lemma str_lt_asym : forall a b, str_lt a b = true -> str_lt b a = false.
Proof.
  induction a as [|c a IH]; intros [|d b] H; simpl in *; try discriminate; auto.
  destruct (Nat.ltb_spec (nat_of_ascii c) (nat_of_ascii d)) as [H1|H1].
  - destruct (Nat.ltb_spec (nat_of_ascii d) (nat_of_ascii c)); [lia|].
    destruct (Nat.eqb_spec (nat_of_ascii d) (nat_of_ascii c)); [lia|reflexivity].
  - destruct (Nat.eqb_spec (nat_of_ascii c) (nat_of_ascii d)) as [H2|H2]; [|discriminate].
    rewrite H2, Nat.ltb_irrefl, Nat.eqb_refl. apply IH. exact H.
Qed.


Lemma insert_proj_desc_hd q p t :
  HdRel newer_or_same q t -> newer_or_same q p -> HdRel newer_or_same q (insert_proj_desc p t).
Proof.
  intros Ht Hp. destruct t as [|r t]; simpl; [constructor; exact Hp|].
  destruct (str_lt (proj_date r) (proj_date p)); constructor; [exact Hp|]. inversion Ht; assumption.
Qed.

Lemma insert_proj_desc_sorted p l : Sorted newer_or_same l -> Sorted newer_or_same (insert_proj_desc p l).
Proof.
  induction l as [|q t IH]; intros Hs; simpl; [repeat constructor|].
  destruct (str_lt (proj_date q) (proj_date p)) eqn:E.
  - constructor; [exact Hs|]. constructor. unfold newer_or_same. apply str_lt_asym. exact E.
  - inversion Hs as [|? ? Ht Hh]; subst. constructor; [apply IH; exact Ht|].
    apply insert_proj_desc_hd; [exact Hh|exact E].
Qed.

Lemma sort_projects_desc_aux_sorted : forall l acc,
  Sorted newer_or_same acc -> Sorted newer_or_same (sort_projects_desc_aux acc l).
Proof.
  induction l as [|p t IH]; intros acc H; simpl; auto. apply IH, insert_proj_desc_sorted, H.
Qed.

Lemma insert_proj_desc_length p l : List.length (insert_proj_desc p l) = S (List.length l).
Proof. induction l as [|q t IH]; simpl; auto. destruct (str_lt _ _); simpl; auto. Qed.

Lemma sort_projects_desc_aux_length : forall l acc,
  List.length (sort_projects_desc_aux acc l) = (List.length acc + List.length l)%nat.
Proof.
  induction l as [|p t IH]; intros acc; simpl; [lia|]. rewrite IH, insert_proj_desc_length. lia.
Qed.

Section ProfileShape.
Variable G : Type.
Variable next32 : G -> Z * G.
Hypothesis next32_nonneg : forall g, 0 <= fst (next32 g).

Lemma project_loop_length d : forall k g ps g',
  project_loop G next32 d k g = Some (ps, g') -> List.length ps = k.
Proof.
  induction k as [|k IH]; intros g ps g' H; cbn [project_loop] in H.
  - unfold ret in H. injection H as <- _. reflexivity.
  - do 6 (apply bind_some in H as [? [? [? H]]]; cbv beta zeta in H).
    unfold ret in H. injection H as <- _. simpl. f_equal. eapply IH. eassumption.
Qed.

Lemma profile_body_shape d g p g' :
  profile_body G next32 d g = Some (p, g') ->
  (List.length (previous_research p) <= 4)%nat /\
  Sorted newer_or_same (previous_research p) /\
  30 <= fit_score (strategic_fit p) <= 95 /\
  (fit_level (strategic_fit p) = "High" <-> 75 < fit_score (strategic_fit p)) /\
  (fit_level (strategic_fit p) = "Low" <-> fit_score (strategic_fit p) <= 50) /\
  nth 1 (profile_insights p) "" =
    ("A total of " ++ py_str_int (Z.of_nat (List.length (previous_research p))) ++
     " internal projects related to " ++ d ++ " have been identified.").
Proof.
  unfold profile_body. intros H.
  apply bind_some in H as [n [g1 [Hn H]]]. apply (randint_range G next32 next32_nonneg) in Hn.
  apply bind_some in H as [ps [g2 [Hps H]]]. apply project_loop_length in Hps.
  apply bind_some in H as [s [g3 [Hs H]]]. apply (randint_range G next32 next32_nonneg) in Hs.
  apply bind_some in H as [[level rationale] [g4 [Hlr H]]].
  do 2 (apply bind_some in H as [? [? [_ H]]]).
  unfold ret in H. injection H as <- _. cbn [previous_research strategic_fit fit_score fit_level profile_insights nth].
  assert (Hlen : List.length (sort_projects_desc ps) = Z.to_nat n).
  { unfold sort_projects_desc. rewrite sort_projects_desc_aux_length. simpl. exact Hps. }
  rewrite Hlen, Z2Nat.id by lia.
  split; [lia|]. split; [apply sort_projects_desc_aux_sorted; constructor|]. split; [lia|].
  assert (Hfit : forall level' : string,
            (level' = "High" <-> 75 < s) -> (level' = "Low" <-> s <= 50) ->
            (level' = "High" <-> 75 < s) /\ (level' = "Low" <-> s <= 50) /\
            ("A total of " ++ py_str_int n ++ " internal projects related to " ++ d ++ " have been identified.")%string =
            ("A total of " ++ py_str_int n ++ " internal projects related to " ++ d ++ " have been identified.")%string)
    by (intros; repeat split; tauto).
  destruct (Z.gtb_spec s 75) as [H1|H1].
  - apply bind_some in Hlr as [? [? [_ Hlr]]]. unfold ret in Hlr. cbv beta in Hlr. inversion Hlr; subst.
    apply Hfit; split; intros; try reflexivity; try lia; discriminate.
  - destruct (Z.gtb_spec s 50) as [H2|H2]; unfold ret in Hlr; cbv beta in Hlr; inversion Hlr; subst;
      apply Hfit; split; intros; try reflexivity; try lia; discriminate.
Qed.

End ProfileShape.
(** For any generator with non-negative 32-bit outputs, an analysis of
    [get_patent_analysis] lists 2 to 15 patents, counts at most that many
    active ones, reports a next expiry exactly when some patent is
    active, rates the freedom to operate High when none is, and carries
    3 key insights when some patent is active and 2 otherwise. *)
Theorem get_patent_analysis_shape {G} (seed_fn : Z -> G) (next32 : G -> Z * G) (d : string) (now : datetime) (p : PatentAnalysis) :
  (forall g, 0 <= fst (next32 g)) ->
  get_patent_analysis seed_fn next32 d now = Some p ->
  (2 <= List.length (patent_timeline p) <= 15)%nat /\
  0 <= active_patents p <= Z.of_nat (List.length (patent_timeline p)) /\
  (next_expiry p = None <-> active_patents p = 0) /\
  (active_patents p = 0 -> freedom_to_operate p = "High") /\
  List.length (key_insights p) = if active_patents p =? 0 then 2%nat else 3%nat.
Proof.
  intros Hnn H. unfold get_patent_analysis in H.
  destruct (patent_body G next32 d now _) as [[p' g']|] eqn:E; [|discriminate].
  injection H as <-. exact (patent_body_shape G next32 Hnn d now _ p' g' E).
Qed.

Lemma get_patent_analysis_shape_witness :
  exists p, get_patent_analysis MT.seed MT.genrand_uint32 "metformin" today = Some p /\
    (2 <= List.length (patent_timeline p) <= 15)%nat /\
    (next_expiry p = None <-> active_patents p = 0).
Proof.
  remember (get_patent_analysis MT.seed MT.genrand_uint32 "metformin" today) as r eqn:E.
  destruct r as [p|]; [|vm_compute in E; discriminate].
  exists p. split; [reflexivity|].
  destruct (get_patent_analysis_shape MT.seed MT.genrand_uint32 "metformin" today p
              genrand_uint32_nonneg (eq_sym E)) as [H1 [_ [H3 _]]].
  split; [exact H1|exact H3].
Defined.

Lemma db_lookup_app_miss k v db : db_lookup k db = None -> db_lookup k (db ++ [(k, v)])%list = Some v.
Proof.
  induction db as [|[k' v'] db IH]; simpl; intros H.
  - rewrite String.eqb_refl. reflexivity.
  - destruct (String.eqb k k'); [discriminate|]. exact (IH H).
Qed.

(** [_get_or_create_drug_profile] memoises by lower-cased name: after a
    call returns a profile, a call with any name equal up to case returns
    the same profile and leaves the database as it is; the first call adds
    at most the one entry for its key. *)
Theorem get_or_create_drug_profile_memo {G} (seed_fn : Z -> G) (next32 : G -> Z * G)
    (db db' : InternalDb) (d d' : string) (p : Profile) :
  get_or_create_drug_profile seed_fn next32 db d = Some (p, db') ->
  py_lower d' = py_lower d ->
  get_or_create_drug_profile seed_fn next32 db' d' = Some (p, db') /\
  (db' = db \/ db' = (db ++ [(py_lower d, p)])%list).
Proof.
  unfold get_or_create_drug_profile. intros H Hd. rewrite Hd.
  destruct (db_lookup (py_lower d) db) as [p0|] eqn:E.
  - injection H as <- <-. rewrite E. auto.
  - destruct (profile_body G next32 d _) as [[p1 g1]|]; [|discriminate].
    injection H as <- <-. rewrite db_lookup_app_miss by exact E. auto.
Qed.

Lemma get_or_create_drug_profile_memo_witness :
  exists p db', get_or_create_drug_profile MT.seed MT.genrand_uint32 [] "Aspirin" = Some (p, db') /\
    get_or_create_drug_profile MT.seed MT.genrand_uint32 db' "ASPIRIN" = Some (p, db').
Proof.
  remember (get_or_create_drug_profile MT.seed MT.genrand_uint32 [] "Aspirin") as r eqn:E.
  destruct r as [[p db']|]; [|vm_compute in E; discriminate].
  exists p, db'. split; [reflexivity|].
  apply (get_or_create_drug_profile_memo MT.seed MT.genrand_uint32 [] db' "Aspirin" "ASPIRIN" p);
    [symmetry; exact E | reflexivity].
Defined.

(** A profile newly created by [_get_or_create_drug_profile] lists at
    most 4 projects, newest date first; its fit score lies in [30, 95],
    its level is High exactly above 75 and Low exactly at or below 50; and
    its second insight reports the number of projects it lists. *)
Theorem get_or_create_drug_profile_shape {G} (seed_fn : Z -> G) (next32 : G -> Z * G)
    (db db' : InternalDb) (d : string) (p : Profile) :
  (forall g, 0 <= fst (next32 g)) ->
  db_lookup (py_lower d) db = None ->
  get_or_create_drug_profile seed_fn next32 db d = Some (p, db') ->
  (List.length (previous_research p) <= 4)%nat /\
  Sorted newer_or_same (previous_research p) /\
  30 <= fit_score (strategic_fit p) <= 95 /\
  (fit_level (strategic_fit p) = "High" <-> 75 < fit_score (strategic_fit p)) /\
  (fit_level (strategic_fit p) = "Low" <-> fit_score (strategic_fit p) <= 50) /\
  nth 1 (profile_insights p) "" =
    ("A total of " ++ py_str_int (Z.of_nat (List.length (previous_research p))) ++
     " internal projects related to " ++ d ++ " have been identified.").
Proof.
  intros Hnn Hmiss H. unfold get_or_create_drug_profile in H. rewrite Hmiss in H.
  destruct (profile_body G next32 d _) as [[p1 g1]|] eqn:E; [|discriminate].
  injection H as <- _. exact (profile_body_shape G next32 Hnn d _ p1 g1 E).
Qed.

Lemma get_or_create_drug_profile_shape_witness :
  exists p db', get_or_create_drug_profile MT.seed MT.genrand_uint32 [] "Aspirin" = Some (p, db') /\
    30 <= fit_score (strategic_fit p) <= 95 /\
    Sorted newer_or_same (previous_research p).
Proof.
  remember (get_or_create_drug_profile MT.seed MT.genrand_uint32 [] "Aspirin") as r eqn:E.
  destruct r as [[p db']|]; [|vm_compute in E; discriminate].
  exists p, db'. split; [reflexivity|].
  destruct (get_or_create_drug_profile_shape MT.seed MT.genrand_uint32 [] db' "Aspirin" p
              genrand_uint32_nonneg eq_refl (eq_sym E)) as [_ [H2 [H3 _]]].
  split; [exact H3|exact H2].
Defined.

(** ** Effects of the orchestrator on the store *)

Lemma dict_get_set_neq k k' v l : k <> k' -> dict_get k (dict_set k' v l) = dict_get k l.
Proof.
  intros Hne. induction l as [|[k'' v'] l IH]; simpl.
  - apply String.eqb_neq in Hne. rewrite Hne. reflexivity.
  - destruct (String.eqb k' k'') eqn:E; simpl.
    + apply String.eqb_eq in E. subst k''. apply String.eqb_neq in Hne. rewrite Hne. reflexivity.
    + destruct (String.eqb k k''); [reflexivity|exact IH].
Qed.

(** Whatever the task outcomes and the progress channel, one call of
    [analyze_drug] dispatches either no task or one batch of six, and
    changes no session entry other than the one under its cache key. *)
Theorem analyze_drug_store_effect md5 sink d a now res s :
  let s' := snd (analyze_drug md5 sink d a now res s) in
  (dispatched s' = dispatched s \/ dispatched s' = (dispatched s + 6)%nat) /\
  (forall k, k <> get_analysis_cache_key md5 d a ->
     dict_get k (session_state s') = dict_get k (session_state s)).
Proof.
  cbv zeta. unfold analyze_drug.
  assert (Hinv : forall r s', analyze_try md5 sink d a now res s = (r, s') ->
            (dispatched s' = dispatched s \/ dispatched s' = (dispatched s + 6)%nat) /\
            (forall k, k <> get_analysis_cache_key md5 d a ->
               dict_get k (session_state s') = dict_get k (session_state s))).
  { intros r s' H. unfold analyze_try in H.
    destruct (validate_drug_name d); cbn in H; [|injection H as _ <-; auto].
    unfold abind, session_get in H. cbn -[dict_get dict_set get_analysis_cache_key process_result py_or] in H.
    destruct (dict_get _ (session_state s)); [injection H as _ <-; auto|].
    unfold update_progress, send_progress in H.
    destruct (sink (1 * 20)); [injection H as _ <-; auto|].
    cbn -[dict_get dict_set get_analysis_cache_key process_result py_or] in H.
    repeat match type of H with
    | context [match ?x with Some _ => _ | None => _ end] =>
        destruct x; cbn -[dict_get dict_set get_analysis_cache_key process_result py_or] in H
    | context [match ?x with Ok _ => _ | Err _ => _ end] =>
        destruct x; cbn -[dict_get dict_set get_analysis_cache_key process_result py_or] in H
    end;
    injection H as _ <-; cbn; split; auto; intros; apply dict_get_set_neq; auto. }
  destruct (analyze_try md5 sink d a now res s) as [[v|e] s'] eqn:E;
    [|destruct (sink 0)]; exact (Hinv _ _ eq_refl).
Qed.

(** An empty or whitespace-only drug name is rejected before the cache
    is consulted: with a working progress channel [analyze_drug] returns
    the error dict for "Invalid drug name", dispatches no task and leaves
    the store unchanged. *)
Theorem analyze_drug_rejects_blank_name md5 sink d a now res s :
  all_space d = true ->
  sink 0 = None ->
  analyze_drug md5 sink d a now res s =
    (Ok (PDict [("status", PStr "error"); ("message", PStr "Analysis error: Invalid drug name")]), s).
Proof.
  intros Hsp Hs. unfold analyze_drug, analyze_try, validate_drug_name. rewrite Hsp, andb_false_r.
  cbn -[String.append]. rewrite Hs. reflexivity.
Qed.

Lemma analyze_drug_rejects_blank_name_witness :
  analyze_drug md5_id healthy_sink "  " "diabetes" "t" all_ok (mk_ostate [] 0) =
    (Ok (PDict [("status", PStr "error"); ("message", PStr "Analysis error: Invalid drug name")]), mk_ostate [] 0).
Proof. apply analyze_drug_rejects_blank_name; reflexivity. Defined.

(** ** The evidence search of [WebIntelligenceAgent] *)


Lemma search_evidence_searched c query t_get t_set ww r c' :
  search_evidence c query t_get t_set ww = Ok (r, c', true) ->
  c' = set_cached c ("web_intel_" ++ py_lower query) r t_set /\ py_truth r = Ok true.
Proof.
  unfold search_evidence. cbv zeta.
  destruct (get_cached _ _ _ _) as [cd|];
    [destruct (py_truth cd) as [[|]|e]; [discriminate| |discriminate]|];
    destruct (pubmed_results ww); try discriminate;
    intros H; injection H as <- <-; split; reflexivity.
Qed.

(** After a call that searched, a call for the same query up to case
    answers the stored result without searching while less than six hours
    have passed since it was stored. Afterwards it searches again: it
    raises what [_search_pubmed] raises, or stores and returns a fresh
    result. *)
Theorem search_evidence_cache_ttl c q q' t1 t2 t3 t4 ww ww' r c' :
  search_evidence c q t1 t2 ww = Ok (r, c', true) ->
  py_lower q' = py_lower q ->
  (t3 - t2 < web_intel_cache_ttl -> search_evidence c' q' t3 t4 ww' = Ok (r, c', false)) /\
  (web_intel_cache_ttl <= t3 - t2 ->
     (forall e, pubmed_results ww' = Err e -> search_evidence c' q' t3 t4 ww' = Err e) /\
     (forall pm, pubmed_results ww' = Ok pm -> exists r',
        search_evidence c' q' t3 t4 ww' = Ok (r', set_cached c' ("web_intel_" ++ py_lower q) r' t4, true))).
Proof.
  intros H Hq. apply search_evidence_searched in H as [-> Ht].
  assert (G : get_cached web_intel_cache_ttl (set_cached c ("web_intel_" ++ py_lower q) r t2)
                ("web_intel_" ++ py_lower q) t3 = if t3 - t2 <? web_intel_cache_ttl then Some r else None)
    by (unfold get_cached, set_cached; rewrite cache_lookup_store_eq; reflexivity).
  unfold search_evidence. cbv zeta. rewrite Hq, G. split; intros Hlt.
  - apply Z.ltb_lt in Hlt. rewrite Hlt, Ht. reflexivity.
  - replace (t3 - t2 <? web_intel_cache_ttl) with false by (symmetry; apply Z.ltb_ge; exact Hlt).
    split; [intros e He; rewrite He; reflexivity|].
    intros pm Hp. rewrite Hp. eexists. reflexivity.
Qed.


Lemma search_evidence_cache_ttl_witness :
  search_evidence [] "Aspirin" 0 second (mk_web_world (Ok [("T", "PubMed")]) []) =
    Ok (PDict [("sources", PList [PStr "PubMed"]); ("findings", PList [PStr "T (Source: PubMed)"]); ("news", PList [])],
        set_cached [] "web_intel_aspirin"
          (PDict [("sources", PList [PStr "PubMed"]); ("findings", PList [PStr "T (Source: PubMed)"]); ("news", PList [])])
          second,
        true) /\
  search_evidence
    (set_cached [] "web_intel_aspirin"
       (PDict [("sources", PList [PStr "PubMed"]); ("findings", PList [PStr "T (Source: PubMed)"]); ("news", PList [])])
       second)
    "ASPIRIN" (2 * second) (3 * second) (mk_web_world (Err (mk_exc "ParseError" "syntax error")) []) =
    Ok (PDict [("sources", PList [PStr "PubMed"]); ("findings", PList [PStr "T (Source: PubMed)"]); ("news", PList [])],
        set_cached [] "web_intel_aspirin"
          (PDict [("sources", PList [PStr "PubMed"]); ("findings", PList [PStr "T (Source: PubMed)"]); ("news", PList [])])
          second,
        false).
Proof.
  assert (E : search_evidence [] "Aspirin" 0 second (mk_web_world (Ok [("T", "PubMed")]) []) =
    Ok (PDict [("sources", PList [PStr "PubMed"]); ("findings", PList [PStr "T (Source: PubMed)"]); ("news", PList [])],
        set_cached [] "web_intel_aspirin"
          (PDict [("sources", PList [PStr "PubMed"]); ("findings", PList [PStr "T (Source: PubMed)"]); ("news", PList [])])
          second,
        true)) by reflexivity.
  split; [exact E|].
  exact (proj1 (search_evidence_cache_ttl _ "Aspirin" "ASPIRIN" 0 second (2 * second) (3 * second) _
                  (mk_web_world (Err (mk_exc "ParseError" "syntax error")) []) _ _ E eq_refl)
           ltac:(unfold web_intel_cache_ttl, second; lia)).
Defined.

(** ** The clinical trials search *)

Lemma rbind_ok {A B} (r : Res A) (f : A -> Res B) y :
  rbind r f = Ok y -> exists x, r = Ok x /\ f x = Ok y.
Proof. destruct r as [x|e]; simpl; [eauto|discriminate]. Qed.

Lemma py_slice_iter_length v n l : py_slice_iter v n = Ok l -> (List.length l <= n)%nat.
Proof. unfold py_slice_iter. destruct v; intros H; try discriminate; injection H as <-; apply firstn_le_length. Qed.

Section TrialCounts.
Variable process_trial : pyval -> option (list (string * pyval)).
Variable py_str : pyval -> string.
Variable quote_plus : string -> string.

Lemma process_study_ok acc study acc' :
  process_study process_trial py_str acc study = Ok acc' -> acc_ok acc ->
  acc_ok acc' /\ (List.length (trials_rev acc') <= S (List.length (trials_rev acc)))%nat.
Proof.
  unfold process_study. intros H Hok.
  destruct (process_trial study) as [[|kv0 trial]|];
    [injection H as <-; split; [exact Hok|lia] | | injection H as <-; split; [exact Hok|lia]].
  cbv zeta in H.
  apply rbind_ok in H as [parts1 [_ H]]. apply rbind_ok in H as [parts [_ H]].
  apply rbind_ok in H as [title [_ H]]. apply rbind_ok in H as [[insight trial'] [_ H]].
  injection H as <-. unfold acc_ok in *. cbn [n_ii n_iii trials_rev insights_rev List.length].
  destruct Hok as [H1 [H2 H3]]. rewrite Nat2Z.inj_succ.
  split; [|lia]. split; [lia|].
  split; match goal with |- context [if ?b then _ else _] => destruct b end; lia.
Qed.

Lemma process_studies_ok : forall studies acc acc',
  process_studies process_trial py_str acc studies = Ok acc' -> acc_ok acc ->
  acc_ok acc' /\ (List.length (trials_rev acc') <= List.length (trials_rev acc) + List.length studies)%nat.
Proof.
  induction studies as [|s rest IH]; intros acc acc' H Hok; simpl in H.
  - injection H as <-. split; [exact Hok|lia].
  - apply rbind_ok in H as [acc1 [H1 H]].
    destruct (process_study_ok _ _ _ H1 Hok) as [Hok1 Hl1].
    destruct (IH _ _ H Hok1) as [Hok' Hl']. split; [exact Hok'|]. simpl. lia.
Qed.

Lemma process_api_response_shape data out :
  process_api_response process_trial py_str data = Ok out ->
  exists n2 n3 trials ins,
    out = [("phase_ii", PInt n2); ("phase_iii", PInt n3); ("trials", PList trials);
           ("insights", PList ins); ("source", PStr "clinicaltrials.gov");
           ("total_count", py_get data "totalCount" (PInt 0))] /\
    (List.length trials <= 10)%nat /\
    0 <= n2 <= Z.of_nat (List.length trials) /\ 0 <= n3 <= Z.of_nat (List.length trials) /\
    List.length ins = Nat.min 5 (List.length trials).
Proof.
  unfold process_api_response. intros H.
  apply rbind_ok in H as [studies [Hs H]]. apply rbind_ok in H as [acc [Ha H]].
  injection H as <-.
  destruct (process_studies_ok _ _ _ Ha) as [[H1 [H2 H3]] Hl]; [unfold acc_ok; simpl; lia|].
  assert (Hs10 : (List.length studies <= 10)%nat).
  { exact (py_slice_iter_length _ _ _ Hs). }
  simpl in Hl.
  exists (n_ii acc), (n_iii acc), (rev (trials_rev acc)), (firstn 5 (rev (insights_rev acc))).
  split; [reflexivity|]. rewrite length_rev.
  split; [lia|]. split; [lia|]. split; [lia|].
  transitivity (Nat.min 5 (List.length (rev (insights_rev acc))));
    [exact (length_firstn 5 _) | rewrite length_rev, H1; reflexivity].
Qed.


Lemma search_clinicaltrials_found w c r c' :
  search_clinicaltrials process_trial py_str w c = (Some r, c') -> trials_found r.
Proof.
  unfold search_clinicaltrials. destruct (get_with_retry w 3 c) as [data c1].
  intros H.
  destruct data as [[| | | | |[|kv0 kv]|]|]; try discriminate.
  destruct (py_truth _) as [[]|]; try discriminate.
  destruct (process_api_response process_trial py_str (kv0 :: kv)) as [out|] eqn:Hp; try discriminate.
  destruct (process_api_response_shape _ _ Hp) as [n2 [n3 [trials [ins [Eo [Hl [H2 [H3 Hi]]]]]]]].
  subst out. cbn [py_get dict_get String.eqb Ascii.eqb Bool.eqb andb] in H.
  destruct trials as [|t0 trials]; [discriminate|].
  injection H as <- _.
  exists n2, n3, (t0 :: trials), ins, (py_get (kv0 :: kv) "totalCount" (PInt 0)).
  split; [reflexivity|]. cbn [List.length] in *. repeat split; lia.
Qed.

Lemma search_clinicaltrials_unreachable w c :
  (forall i, (i < 3)%nat -> request_fails (upstream w i) = true) ->
  fst (search_clinicaltrials process_trial py_str w c) = None /\
  requests_of (trace (snd (search_clinicaltrials process_trial py_str w c))) = (requests_of (trace c) + 3)%nat.
Proof.
  intros Hf. unfold search_clinicaltrials, get_with_retry.
  destruct (get_with_retry_loop_all_fail w 3 3 0 c eq_refl (fun i Hi => Hf i (proj2 Hi))) as [H1 H2].
  destruct (get_with_retry_loop w 3 0 3 c) as [data c1]. simpl in H1, H2. subst data.
  split; [reflexivity|exact H2].
Qed.

(** [get_clinical_trials] answers either the no-trials dict or the dict
    built from a search that found trials; never the error dict. *)
Theorem get_clinical_trials_wellformed w1 w2 d cond c :
  fst (get_clinical_trials process_trial py_str quote_plus w1 w2 d cond c) = no_trials_found quote_plus d \/
  exists n2 n3 trials ins tc,
    fst (get_clinical_trials process_trial py_str quote_plus w1 w2 d cond c) =
      PDict [("phase_ii_trials", PInt n2); ("phase_iii_trials", PInt n3); ("recent_trials", PList trials);
             ("key_insights", PList ins); ("total_studies", tc);
             ("status", PStr ("Found " ++ py_str tc ++ " studies"));
             ("source", PStr "clinicaltrials.gov"); ("search_url", PStr (search_url quote_plus d))] /\
    (1 <= List.length trials <= 10)%nat /\
    0 <= n2 <= Z.of_nat (List.length trials) /\ 0 <= n3 <= Z.of_nat (List.length trials) /\
    (1 <= List.length ins <= 5)%nat.
Proof.
  unfold get_clinical_trials.
  destruct (search_clinicaltrials process_trial py_str w1 c) as [[r1|] c1] eqn:E1;
    [|destruct (negb (String.eqb cond "")); [destruct (search_clinicaltrials process_trial py_str w2 c1) as [[r2|] c2] eqn:E2|]];
    try (left; reflexivity);
    [apply search_clinicaltrials_found in E1 as Hf|apply search_clinicaltrials_found in E2 as Hf];
    destruct Hf as [n2 [n3 [trials [ins [tc [Er [Hl [H2 [H3 Hi]]]]]]]]]; subst;
    right; exists n2, n3, trials, ins, tc; (split; [reflexivity|]);
    rewrite Hi; repeat split; lia.
Qed.

(** When ClinicalTrials.gov cannot be reached, [get_clinical_trials]
    answers the no-trials dict after three requests, or six when a
    condition was given (the broader search retries too). *)
Theorem get_clinical_trials_unreachable w1 w2 d cond c :
  (forall i, (i < 3)%nat -> request_fails (upstream w1 i) = true) ->
  (forall i, (i < 3)%nat -> request_fails (upstream w2 i) = true) ->
  fst (get_clinical_trials process_trial py_str quote_plus w1 w2 d cond c) = no_trials_found quote_plus d /\
  requests_of (trace (snd (get_clinical_trials process_trial py_str quote_plus w1 w2 d cond c))) =
    (requests_of (trace c) + if String.eqb cond "" then 3 else 6)%nat.
Proof.
  intros Hf1 Hf2. unfold get_clinical_trials.
  destruct (search_clinicaltrials_unreachable w1 c Hf1) as [E1 R1].
  destruct (search_clinicaltrials process_trial py_str w1 c) as [r1 c1]. simpl in E1, R1. subst r1.
  destruct (String.eqb cond "").
  - simpl. split; [reflexivity|exact R1].
  - destruct (search_clinicaltrials_unreachable w2 c1 Hf2) as [E2 R2].
    simpl. destruct (search_clinicaltrials process_trial py_str w2 c1) as [r2 c2]. simpl in E2, R2. subst r2.
    split; [reflexivity|]. simpl. lia.
Qed.

End TrialCounts.

Lemma get_clinical_trials_unreachable_witness :
  (forall i, (i < 3)%nat -> request_fails (upstream timeout_world i) = true) /\
  fst (get_clinical_trials (fun _ => None) (fun _ => "") (fun s => s) timeout_world timeout_world
         "aspirin" "diabetes" c0) = no_trials_found (fun s => s) "aspirin" /\
  requests_of (trace (snd (get_clinical_trials (fun _ => None) (fun _ => "") (fun s => s)
         timeout_world timeout_world "aspirin" "diabetes" c0))) = 6%nat.
Proof.
  assert (H : forall i, (i < 3)%nat -> request_fails (upstream timeout_world i) = true)
    by (intros; reflexivity).
  split; [exact H|].
  exact (get_clinical_trials_unreachable (fun _ => None) (fun _ => "") (fun s => s)
           timeout_world timeout_world "aspirin" "diabetes" c0 H H).
Defined.
